(** * The managed-cluster validating-webhook suite (package webhooks)

    A shallow embedding of the Ginkgo suite: the identity helpers
    ([asUser], [asServiceAccount], [asDedicatedAdmin]), the pod fixture
    ([newTestPod], [withNamespace]), the daemonset readiness predicate of
    [waitForDaemonSetAvailable], and the specs themselves, run against an
    arbitrary cluster that answers every remote call.  The polling loop of
    [wait.For], its clock, and the spec timeouts are the libraries' and lie
    outside: a wait is one call that the cluster answers. *)

From Stdlib Require Import ZArith.
From stdpp Require Import base list strings pretty.

Open Scope string_scope.

(** ** Objects of the Kubernetes API, as far as the suite touches them *)

Module metav1.
Record ObjectMeta := { Name : string; Namespace : string }.
End metav1.

Module v1.
Inductive TaintEffect :=
  TaintEffectNoSchedule | TaintEffectPreferNoSchedule | TaintEffectNoExecute.
Record Container := { Name : string; Image : string }.
Record Toleration := { Key : string; Value : string; Effect : TaintEffect }.
Record PodSpec :=
  { Containers : list Container; Tolerations : list Toleration }.
Record Pod := { ObjectMeta : metav1.ObjectMeta; Spec : PodSpec }.
End v1.

Module appsv1.
(** The four counters of the status that the suite compares (int32 in Go;
    they are only compared, never added). *)
Record DaemonSetStatus := {
  CurrentNumberScheduled : Z;
  DesiredNumberScheduled : Z;
  NumberReady : Z;
  NumberAvailable : Z
}.
Record DaemonSet := { ObjectMeta : metav1.ObjectMeta; Status : DaemonSetStatus }.
End appsv1.

(** ** Go errors and the two classifiers of apierrors the suite calls *)

Inductive StatusReason :=
  StatusReasonNotFound | StatusReasonForbidden | StatusReasonAlreadyExists
| StatusReasonConflict | StatusReasonUnknown.

Inductive GoError :=
| StatusError (reason : StatusReason)
| OtherError (msg : string).

(** A Go [error] value: [None] is nil. *)
Definition error := option GoError.

Module apierrors.
Definition IsNotFound (err : error) : bool :=
  match err with Some (StatusError StatusReasonNotFound) => true | _ => false end.
Definition IsForbidden (err : error) : bool :=
  match err with Some (StatusError StatusReasonForbidden) => true | _ => false end.
End apierrors.

(** ** Client configuration *)

Module rest.
Record ImpersonationConfig := { UserName : string; Groups : list string }.
(** The connection settings ([Host] stands for the ambient credential and
    endpoint) and the identity to impersonate. *)
Record Config := { Host : string; Impersonate : ImpersonationConfig }.
End rest.

Module helper.
(** Modelled from the spec: the type [helper.H] of pkg/common/helper, a
    shared mutable struct holding the ambient client state, whose identity
    is mutated in place before each call.  The suite writes its field
    [ServiceAccount] and calls [Impersonate], [GetConfig] and
    [CurrentProject]. *)
Record H := { ServiceAccount : string; restConfig : rest.Config; proj : string }.

(** Modelled from the spec: [h.Impersonate(cfg)] stores the identity on the
    helper's configuration ([asUser] drops what the call returns and then
    reads [h.GetConfig()], so the call acts on [h]). *)
Definition Impersonate (h : H) (user : rest.ImpersonationConfig) : H :=
  {| ServiceAccount := ServiceAccount h;
     restConfig := {| rest.Host := rest.Host (restConfig h); rest.Impersonate := user |};
     proj := proj h |}.

(** Modelled from the spec: [h.GetConfig()] hands out the helper's
    configuration. *)
Definition GetConfig (h : H) : rest.Config := restConfig h.

(** Modelled from the spec: [h.CurrentProject()] names the helper's project. *)
Definition CurrentProject (h : H) : string := proj h.

Definition set_ServiceAccount (h : H) (sa : string) : H :=
  {| ServiceAccount := sa; restConfig := restConfig h; proj := proj h |}.
End helper.

Module resources.
(** A client of the e2e-framework: it is known here by the configuration
    that [resources.New] read when it built the client. *)
Record Resources := { config : rest.Config }.
End resources.

(** ** Remote calls and the cluster that answers them *)

(** The empty objects handed to [Get] in the existence spec. *)
Inductive Kind := KNamespace | KConfigMap | KSecret | KService.

Inductive Call :=
| Get (client : resources.Resources) (name namespace : string) (obj : Kind)
| Create (client : resources.Resources) (obj : v1.Pod)
| Delete (client : resources.Resources) (obj : v1.Pod)
| WaitForResourceMatch (client : resources.Resources) (obj : appsv1.DaemonSet)
    (matchFetcher : appsv1.DaemonSet -> bool).

(** Everything outside the suite: the answer of the API (or of the wait
    engine) to a call, given the calls made before it; whether
    [resources.New] rejects a configuration; and the names that
    [envconf.RandomName] hands out, by draw. *)
Record Cluster := {
  respond : list Call -> Call -> error;
  New_error : rest.Config -> error;
  RandomName : string -> nat -> nat -> string
}.

(** ** The state of a run *)

Record World := {
  var_h : helper.H;          (* the object behind the package variable h *)
  heap : list v1.Pod;        (* the pod objects, by address *)
  var_pod : option nat;      (* the variable pod of the inner Describe; None is nil *)
  calls : list Call;         (* the remote calls made so far, oldest first *)
  draws : nat                (* the random names drawn so far *)
}.

Definition set_h (w : World) (h : helper.H) : World :=
  {| var_h := h; heap := heap w; var_pod := var_pod w; calls := calls w; draws := draws w |}.
Definition set_heap (w : World) (hp : list v1.Pod) : World :=
  {| var_h := var_h w; heap := hp; var_pod := var_pod w; calls := calls w; draws := draws w |}.
Definition set_pod (w : World) (p : option nat) : World :=
  {| var_h := var_h w; heap := heap w; var_pod := p; calls := calls w; draws := draws w |}.
Definition set_calls (w : World) (cs : list Call) : World :=
  {| var_h := var_h w; heap := heap w; var_pod := var_pod w; calls := cs; draws := draws w |}.
Definition set_draws (w : World) (n : nat) : World :=
  {| var_h := var_h w; heap := heap w; var_pod := var_pod w; calls := calls w; draws := n |}.

(** ** A state monad with failure

    [Failed] is a Ginkgo failure: a failed Gomega assertion, or a panic.
    It aborts the rest of the node it happens in. *)

Inductive Outcome (A : Type) :=
| Ok (a : A)
| Failed (msg : string).
Arguments Ok {A} a.
Arguments Failed {A} msg.

Definition M (A : Type) : Type := World -> Outcome A * World.

Definition ret {A} (a : A) : M A := fun w => (Ok a, w).
Definition fail {A} (msg : string) : M A := fun w => (Failed msg, w).
Definition bind {A B} (m : M A) (k : A -> M B) : M B :=
  fun w => match m w with
           | (Ok a, w') => k a w'
           | (Failed msg, w') => (Failed msg, w')
           end.
Definition gets {A} (f : World -> A) : M A := fun w => (Ok (f w), w).
Definition modify (f : World -> World) : M unit := fun w => (Ok tt, f w).

Notation "x <- m ;; k" := (bind m (fun x => k))
  (at level 100, m at next level, right associativity).
Notation "m ;; k" := (bind m (fun _ => k))
  (at level 100, right associativity).

(** Gomega: [Expect(err).ShouldNot(HaveOccurred(), msg)] and
    [Expect(b).To(BeTrue(), msg)]. *)
Definition Expect_NotTo_HaveOccurred (err : error) (msg : string) : M unit :=
  match err with None => ret tt | Some _ => fail msg end.
Definition Expect_To_BeTrue (b : bool) (msg : string) : M unit :=
  if b then ret tt else fail msg.

(** ** Constants of the suite *)

Definition namespaceName := "openshift-validation-webhook".
Definition serviceName := "validation-webhook".
Definition daemonsetName := "validation-webhook".
Definition configMapName := "webhook-cert".
Definition secretName := "webhook-cert".
Definition privilegedNamespace := "openshift-backplane".
Definition unprivilegedNamespace := "openshift-logging".

(** ** Pod fixture *)

(** The object that [newTestPod] builds. *)
Definition testPod (name : string) : v1.Pod :=
  {| v1.ObjectMeta := {| metav1.Name := name; metav1.Namespace := "" |};
     v1.Spec :=
       {| v1.Containers :=
            [ {| v1.Name := "test";
                 v1.Image := "registry.access.redhat.com/ubi8/ubi-minimal" |} ];
          v1.Tolerations :=
            [ {| v1.Key := "node-role.kubernetes.io/master";
                 v1.Value := "toleration-key-value";
                 v1.Effect := v1.TaintEffectNoSchedule |};
              {| v1.Key := "node-role.kubernetes.io/infra";
                 v1.Value := "toleration-key-value2";
                 v1.Effect := v1.TaintEffectNoSchedule |} ] |} |}.

(** A new object at a new address. *)
Definition alloc (p : v1.Pod) : M nat :=
  fun w => (Ok (length (heap w)), set_heap w (heap w ++ [p])%list).

(** Reading through a pod pointer; nil or a dangling address panics. *)
Definition deref (ptr : option nat) : M v1.Pod :=
  fun w => match ptr with
           | Some l => match heap w !! l with
                       | Some p => (Ok p, w)
                       | None => (Failed "invalid memory address or nil pointer dereference", w)
                       end
           | None => (Failed "invalid memory address or nil pointer dereference", w)
           end.

Definition set_Namespace (p : v1.Pod) (namespace : string) : v1.Pod :=
  {| v1.ObjectMeta := {| metav1.Name := metav1.Name (v1.ObjectMeta p);
                         metav1.Namespace := namespace |};
     v1.Spec := v1.Spec p |}.

(** [return &v1.Pod{...}]: a pointer to a new object. *)
Definition newTestPod (name : string) : M (option nat) :=
  l <- alloc (testPod name) ;;
  ret (Some l).

(** [pod.ObjectMeta.Namespace = namespace; return pod]: the object behind
    the pointer is updated where it lies and the same pointer comes back. *)
Definition withNamespace (pod : option nat) (namespace : string) : M (option nat) :=
  p <- deref pod ;;
  match pod with
  | Some l => modify (fun w => set_heap w (<[l := set_Namespace p namespace]> (heap w))) ;;
              ret pod
  | None => ret pod
  end.

(** ** Identity helpers *)

(** Lines 158-166 of [asUser]: the groups, then [h.Impersonate]. *)
Definition asUser_impersonate (user : string) (groups : list string) : M unit :=
  let groups :=
    if negb (String.eqb user "")
    then (groups ++ ["system:authenticated"; "system:authenticated:oauth"])%list
    else groups in
  modify (fun w => set_h w (helper.Impersonate (var_h w)
            {| rest.UserName := user; rest.Groups := groups |})).

Section Suite.

Variable env : Cluster.

(** [resources.New(cfg)]. *)
Definition resources_New (cfg : rest.Config) : resources.Resources + GoError :=
  match New_error env cfg with
  | None => inl {| resources.config := cfg |}
  | Some e => inr e
  end.

(** Lines 168-171 of [asUser]: the client from the helper's configuration. *)
Definition asUser_client : M resources.Resources :=
  cfg <- gets (fun w => helper.GetConfig (var_h w)) ;;
  match resources_New cfg with
  | inl client => ret client
  | inr _ => fail "failed to create resources client object"
  end.

Definition asUser (user : string) (groups : list string) : M resources.Resources :=
  asUser_impersonate user groups ;;
  asUser_client.

Definition asServiceAccount (sa : string) : M resources.Resources :=
  modify (fun w => set_h w (helper.set_ServiceAccount (var_h w) sa)) ;;
  asUser sa [].

Definition asDedicatedAdmin : M resources.Resources :=
  asUser "test-user@redhat.com" ["dedicated-admins"].

(** ** Remote calls *)

(** A remote call is recorded and answered by the cluster. *)
Definition remote (c : Call) : M error :=
  fun w => (Ok (respond env (calls w) c), set_calls w (calls w ++ [c])%list).

Definition client_Get (client : resources.Resources) (name namespace : string)
    (obj : Kind) : M error :=
  remote (Get client name namespace obj).

(** [client.Create(ctx, pod)] and [client.Delete(ctx, pod)] send the object
    behind the pointer as it is at the time of the call.  The server's copy
    that the client writes back into the object after a successful create
    is not modelled: of the object after such a create, only what the suite
    itself wrote is stated. *)
Definition client_Create (client : resources.Resources) (pod : option nat) : M error :=
  p <- deref pod ;;
  remote (Create client p).

Definition client_Delete (client : resources.Resources) (pod : option nat) : M error :=
  p <- deref pod ;;
  remote (Delete client p).

(** ** Daemonset readiness *)

(** The match function that [waitForDaemonSetAvailable] passes to
    [ResourceMatch]. *)
Definition daemonSetAvailable (d : appsv1.DaemonSet) : bool :=
  let desiredNumScheduled := appsv1.DesiredNumberScheduled (appsv1.Status d) in
  (appsv1.CurrentNumberScheduled (appsv1.Status d) =? desiredNumScheduled)%Z &&
  (appsv1.NumberReady (appsv1.Status d) =? desiredNumScheduled)%Z &&
  (appsv1.NumberAvailable (appsv1.Status d) =? desiredNumScheduled)%Z.

(** [wait.For(conditions.New(resources).ResourceMatch(ds, f))]: the polling is
    the e2e-framework's; the suite hands it the client, the object to fetch
    and the match function, and gets an error or nil back. *)
Definition waitForDaemonSetAvailable (resources : resources.Resources)
    (name namespace : string) : M error :=
  let ds :=
    {| appsv1.ObjectMeta := {| metav1.Name := name; metav1.Namespace := namespace |};
       appsv1.Status := {| appsv1.CurrentNumberScheduled := 0;
                           appsv1.DesiredNumberScheduled := 0;
                           appsv1.NumberReady := 0;
                           appsv1.NumberAvailable := 0 |} |} in
  remote (WaitForResourceMatch resources ds daemonSetAvailable).

(** ** The specs *)

Definition It_exists_and_is_running : M unit :=
  client <- asUser "" [] ;;
  err <- client_Get client namespaceName namespaceName KNamespace ;;
  Expect_NotTo_HaveOccurred err "project should have been created" ;;
  err <- client_Get client configMapName namespaceName KConfigMap ;;
  Expect_NotTo_HaveOccurred err "failed to get config map webhook-cert" ;;
  err <- client_Get client secretName namespaceName KSecret ;;
  Expect_NotTo_HaveOccurred err "failed to get secret webhook-cert" ;;
  err <- client_Get client serviceName namespaceName KService ;;
  Expect_NotTo_HaveOccurred err "no Service named validation-webhook found." ;;
  err <- waitForDaemonSetAvailable client daemonsetName namespaceName ;;
  Expect_NotTo_HaveOccurred err "no DaemonSet named validation-webhook found.".

(** [envconf.RandomName(prefix, n)]. *)
Definition envconf_RandomName (prefix : string) (n : nat) : M string :=
  fun w => (Ok (RandomName env prefix n (draws w)), set_draws w (S (draws w))).

Definition BeforeEach : M unit :=
  name <- envconf_RandomName "osde2e" 12 ;;
  p <- newTestPod name ;;
  modify (fun w => set_pod w p).

Definition AfterEach : M unit :=
  client <- asUser "" [] ;;
  pod <- gets var_pod ;;
  err <- client_Delete client pod ;;
  if negb (apierrors.IsNotFound err)
  then Expect_NotTo_HaveOccurred err "failed to delete test pod"
  else ret tt.

Definition It_are_blocked : M unit :=
  pod <- gets var_pod ;;
  pod <- withNamespace pod privilegedNamespace ;;
  modify (fun w => set_pod w pod) ;;
  client <- asDedicatedAdmin ;;
  pod <- gets var_pod ;;
  err <- client_Create client pod ;;
  Expect_To_BeTrue (apierrors.IsForbidden err) "expected forbidden error" ;;
  client <- asUser "majora" [] ;;
  pod <- gets var_pod ;;
  err <- client_Create client pod ;;
  Expect_To_BeTrue (apierrors.IsForbidden err) "expected forbidden error" ;;
  pod <- gets var_pod ;;
  pod <- withNamespace pod unprivilegedNamespace ;;
  err <- client_Create client pod ;;
  Expect_To_BeTrue (apierrors.IsForbidden err) "expected forbidden error".

(** [fmt.Sprintf("system:serviceaccount:%s:dedicated-admin-project", project)]. *)
Definition adminProjectServiceAccount (project : string) : string :=
  "system:serviceaccount:" ++ project ++ ":dedicated-admin-project".

Definition It_are_allowed : M unit :=
  project <- gets (fun w => helper.CurrentProject (var_h w)) ;;
  client <- asServiceAccount (adminProjectServiceAccount project) ;;
  pod <- gets var_pod ;;
  pod <- withNamespace pod privilegedNamespace ;;
  err <- client_Create client pod ;;
  Expect_NotTo_HaveOccurred err "failed to create pod".

(** A spec of the inner container as Ginkgo runs it: [BeforeEach], then the
    body unless [BeforeEach] failed, then [AfterEach] whatever happened
    before; the spec reports the first failure.  The [SpecTimeout] of the
    two specs and the skipping inside an [Ordered] container are Ginkgo's
    and are not part of it: [Ok] says that no assertion of these nodes
    failed. *)
Definition run_spec (body : M unit) : M unit :=
  fun w =>
    let (r1, w1) := BeforeEach w in
    let (r2, w2) := match r1 with
                    | Ok _ => body w1
                    | Failed msg => (Failed msg, w1)
                    end in
    let (r3, w3) := AfterEach w2 in
    (match r2 with Ok _ => r3 | Failed msg => Failed msg end, w3).

(** ** Two calls of the identity helpers on the same helper, interleaved

    [asUser] is two steps on the shared helper: it stores the identity
    (lines 158-166), then builds the client from the helper's
    configuration (lines 168-171); [asServiceAccount] writes
    [h.ServiceAccount] before them.  A goroutine is at one of these
    points, or has returned.  The points are those between the source's
    statements; the suite itself starts no goroutine and nothing finer is
    modelled, so a schedule exhibits one possible execution. *)
Inductive Goroutine :=
| At_asServiceAccount (sa : string)
| At_asUser (user : string) (groups : list string)
| At_New
| Returned (r : Outcome resources.Resources).

Definition step (g : Goroutine) (w : World) : Goroutine * World :=
  match g with
  | At_asServiceAccount sa =>
      (At_asUser sa [], set_h w (helper.set_ServiceAccount (var_h w) sa))
  | At_asUser user groups =>
      match asUser_impersonate user groups w with
      | (Ok _, w') => (At_New, w')
      | (Failed msg, w') => (Returned (Failed msg), w')
      end
  | At_New => let (r, w') := asUser_client w in (Returned r, w')
  | Returned r => (g, w)
  end.

(** A schedule says which goroutine moves next: [true] the first, [false]
    the second. *)
Fixpoint interleave (sched : list bool) (a b : Goroutine) (w : World)
    : Goroutine * Goroutine * World :=
  match sched with
  | [] => (a, b, w)
  | true :: sched' => let (a', w') := step a w in interleave sched' a' b w'
  | false :: sched' => let (b', w') := step b w in interleave sched' a b' w'
  end.

End Suite.

(** The identity a returned goroutine's client was built with. *)
Definition identity_of (g : Goroutine) : option rest.ImpersonationConfig :=
  match g with
  | Returned (Ok client) => Some (rest.Impersonate (resources.config client))
  | _ => None
  end.

(** * What the properties are stated with *)

(** ** A concrete cluster and starting states, for evaluation *)

(** A cluster whose admission webhook lets only the admin-project service
    account of project osde2e-x7k2p create pods, and where everything else
    succeeds. *)
Definition webhook_cluster : Cluster :=
  {| respond := fun _ c =>
       match c with
       | Create client _ =>
           if String.eqb (rest.UserName (rest.Impersonate (resources.config client)))
                (adminProjectServiceAccount "osde2e-x7k2p")
           then None
           else Some (StatusError StatusReasonForbidden)
       | _ => None
       end;
     New_error := fun _ => None;
     RandomName := fun prefix _ i => prefix ++ "-" ++ pretty i |}.

Definition world0 : World :=
  {| var_h := {| helper.ServiceAccount := "";
                 helper.restConfig :=
                   {| rest.Host := "https://api.cluster.example:6443";
                      rest.Impersonate := {| rest.UserName := ""; rest.Groups := [] |} |};
                 helper.proj := "osde2e-x7k2p" |};
     heap := [];
     var_pod := None;
     calls := [];
     draws := 0 |}.

(** The world in which the specs of the inner container run on
    [webhook_cluster]: [world0] after [BeforeEach]. *)
Definition world1 : World := (BeforeEach webhook_cluster world0).2.

(** A cluster like [webhook_cluster] in which the secret is missing. *)
Definition cluster_without_secret : Cluster :=
  {| respond := fun hist c =>
       match c with
       | Get _ _ _ KSecret => Some (StatusError StatusReasonNotFound)
       | _ => respond webhook_cluster hist c
       end;
     New_error := New_error webhook_cluster;
     RandomName := RandomName webhook_cluster |}.

(** ** Identities, clients and calls *)

(** The groups that [asUser] stores for a user. *)
Definition groups_stored (user : string) (groups : list string) : list string :=
  if negb (String.eqb user "")
  then (groups ++ ["system:authenticated"; "system:authenticated:oauth"])%list
  else groups.

(** The configuration of the helper once [asUser] has stored an identity. *)
Definition config_as (w : World) (user : string) (groups : list string) : rest.Config :=
  {| rest.Host := rest.Host (helper.restConfig (var_h w));
     rest.Impersonate := {| rest.UserName := user; rest.Groups := groups |} |}.

(** A call of one of the two identity helpers of the suite. *)
Inductive IdentityCall :=
| CallAsUser (user : string) (groups : list string)
| CallAsServiceAccount (sa : string).

Definition identity_call (env : Cluster) (c : IdentityCall) : M resources.Resources :=
  match c with
  | CallAsUser user groups => asUser env user groups
  | CallAsServiceAccount sa => asServiceAccount env sa
  end.

(** The identity that such a call asks for. *)
Definition identity_asked (c : IdentityCall) : rest.ImpersonationConfig :=
  match c with
  | CallAsUser user groups =>
      {| rest.UserName := user; rest.Groups := groups_stored user groups |}
  | CallAsServiceAccount sa =>
      {| rest.UserName := sa; rest.Groups := groups_stored sa [] |}
  end.

(** The helper's [ServiceAccount] after such a call, given the one before. *)
Definition service_account_after (c : IdentityCall) (before : string) : string :=
  match c with
  | CallAsUser _ _ => before
  | CallAsServiceAccount sa => sa
  end.

(** The client that [asUser(h, "")] builds in a world. *)
Definition ambient_client (w : World) : resources.Resources :=
  {| resources.config := config_as w "" [] |}.

(** The daemonset validation-webhook with the given counts. *)
Definition status (current desired ready available : Z) : appsv1.DaemonSet :=
  {| appsv1.ObjectMeta := {| metav1.Name := daemonsetName;
                             metav1.Namespace := namespaceName |};
     appsv1.Status := {| appsv1.CurrentNumberScheduled := current;
                         appsv1.DesiredNumberScheduled := desired;
                         appsv1.NumberReady := ready;
                         appsv1.NumberAvailable := available |} |}.

(** The calls of the existence spec, in order. *)
Definition existence_calls (client : resources.Resources) : list Call :=
  [ Get client "openshift-validation-webhook" "openshift-validation-webhook" KNamespace;
    Get client "webhook-cert" "openshift-validation-webhook" KConfigMap;
    Get client "webhook-cert" "openshift-validation-webhook" KSecret;
    Get client "validation-webhook" "openshift-validation-webhook" KService;
    WaitForResourceMatch client (status 0 0 0 0) daemonSetAvailable ].

(** The cluster's answer to the [k]-th call of a list made after [before]. *)
Definition answer (env : Cluster) (before cs : list Call) (k : nat) : error :=
  match cs !! k with
  | Some c => respond env (before ++ take k cs) c
  | None => None
  end.

(** ** Readings of the specification that the suite does not follow *)

(** The reading of the group rule with duplicates collapsed: the client of a
    named user carries exactly the given groups and the two markers, each
    marker once. *)
Definition groups_collapsed_union : Prop :=
  ∀ env user groups w client w',
    user ≠ "" →
    asUser env user groups w = (Ok client, w') →
    let gs := rest.Groups (rest.Impersonate (resources.config client)) in
    (∀ g, g ∈ gs ↔ g ∈ groups ∨ g = "system:authenticated"
                   ∨ g = "system:authenticated:oauth") ∧
    count_occ String.string_dec gs "system:authenticated" = 1 ∧
    count_occ String.string_dec gs "system:authenticated:oauth" = 1.

(** The reading of the empty principal as never impersonating: whatever
    groups are passed with the empty user, the client is built with the
    empty identity. *)
Definition empty_user_never_impersonates : Prop :=
  ∀ env groups w client w',
    asUser env "" groups w = (Ok client, w') →
    rest.Impersonate (resources.config client)
    = {| rest.UserName := ""; rest.Groups := [] |}.

(** The isolation reading: however the steps of two [asUser] calls on the
    same helper are scheduled, each client that comes back was built with
    the identity of its own call. *)
Definition clients_isolated : Prop :=
  ∀ env sched w userA groupsA userB groupsB a b w' identA identB,
    interleave env sched (At_asUser userA groupsA) (At_asUser userB groupsB) w
    = (a, b, w') →
    identity_of a = Some identA →
    identity_of b = Some identB →
    identA = {| rest.UserName := userA; rest.Groups := groups_stored userA groupsA |} ∧
    identB = {| rest.UserName := userB; rest.Groups := groups_stored userB groupsB |}.

(** The reading of the cleanup in which the pod is deleted by the identity
    that created it, on the spec that creates it. *)
Definition cleanup_by_creator : Prop :=
  ∀ env w before creator deleter p q,
    calls (run_spec env (It_are_allowed env) w).2
    = (before ++ [Create creator p; Delete deleter q])%list →
    rest.Impersonate (resources.config deleter)
    = rest.Impersonate (resources.config creator).

(** ** Further notions for the properties of the whole suite *)

(** Calls that only read the cluster. *)
Definition is_read_only (c : Call) : bool :=
  match c with
  | Get _ _ _ _ | WaitForResourceMatch _ _ _ => true
  | Create _ _ | Delete _ _ => false
  end.

(** A cluster on which [resources.New] rejects every configuration. *)
Definition misconfigured_cluster : Cluster :=
  {| respond := respond webhook_cluster;
     New_error := fun _ => Some (OtherError "must provide rest.Config");
     RandomName := RandomName webhook_cluster |}.

(** The world after [BeforeEach]: one more draw, and a new pod object, with
    no namespace yet, that the pod variable points to. *)
Definition after_setup (env : Cluster) (w : World) : World :=
  set_pod (set_heap (set_draws w (S (draws w)))
             (heap w ++ [testPod (RandomName env "osde2e" 12 (draws w))])%list)
    (Some (length (heap w))).

(** Two states that differ at most in the identity and the service account
    held by the helper. *)
Definition same_but_identity (w w' : World) : Prop :=
  heap w = heap w' ∧ var_pod w = var_pod w' ∧ calls w = calls w' ∧
  draws w = draws w' ∧
  rest.Host (helper.restConfig (var_h w)) = rest.Host (helper.restConfig (var_h w')) ∧
  helper.proj (var_h w) = helper.proj (var_h w').

(** A computation whose result, and whose effect on everything but that
    identity, do not depend on it. *)
Definition ignores_identity {A} (m : M A) : Prop :=
  ∀ w w', same_but_identity w w' →
          (m w).1 = (m w').1 ∧ same_but_identity (m w).2 (m w').2.

(** * Properties *)

(** ** What [asUser] computes *)

(** [asUser] in one step: the identity goes onto the helper, and the client,
    if [resources.New] accepts, carries the helper's configuration with it. *)
Lemma asUser_unfold env user groups w :
  asUser env user groups w =
  let cfg := config_as w user (groups_stored user groups) in
  let w' := set_h w (helper.Impersonate (var_h w)
                       {| rest.UserName := user;
                          rest.Groups := groups_stored user groups |}) in
  match New_error env cfg with
  | None => (Ok {| resources.config := cfg |}, w')
  | Some _ => (Failed "failed to create resources client object", w')
  end.
Proof.
  unfold asUser, asUser_impersonate, asUser_client, resources_New, bind,
    modify, gets, groups_stored, config_as.
  cbn. destruct (New_error env _); reflexivity.
Qed.

(** For a named user the two markers are appended. *)
Lemma groups_stored_user user groups :
  user ≠ "" →
  groups_stored user groups
  = (groups ++ ["system:authenticated"; "system:authenticated:oauth"])%list.
Proof.
  intros Hne. unfold groups_stored.
  destruct (String.eqb user "") eqn:E; [|reflexivity].
  apply String.eqb_eq in E. contradiction.
Qed.

(** Occurrences in the appended list: those given plus those appended. *)
Lemma count_occ_two_markers (groups : list string) (m a b : string) :
  count_occ String.string_dec (groups ++ [a; b]) m
  = count_occ String.string_dec groups m + count_occ String.string_dec [a; b] m.
Proof. apply count_occ_app. Qed.

(** C2, as stated, fails: [asUser(h, "majora", "system:authenticated")]
    builds a client whose group list holds system:authenticated twice. *)
Lemma asUser_repeats_given_marker :
  (∃ client w',
      asUser webhook_cluster "majora" ["system:authenticated"] world0 = (Ok client, w') ∧
      rest.Groups (rest.Impersonate (resources.config client))
      = ["system:authenticated"; "system:authenticated"; "system:authenticated:oauth"] ∧
      count_occ String.string_dec (rest.Groups (rest.Impersonate (resources.config client)))
        "system:authenticated" = 2) ∧
  ¬ groups_collapsed_union.
Proof.
  split.
  - eexists _, _. split; [reflexivity|]. split; reflexivity.
  - intros Hclaim.
    destruct (Hclaim webhook_cluster "majora" ["system:authenticated"] world0 _ _
                ltac:(discriminate) eq_refl) as (_ & Hone & _).
    vm_compute in Hone. discriminate.
Qed.

(** C2, amended: for a non-empty user, the client is built with the given
    groups followed by system:authenticated and system:authenticated:oauth.
    As a set this is the union of the given groups and the two markers; as a
    list nothing is collapsed, so each marker occurs once more than among
    the given groups (exactly once when the caller did not pass it).  The
    client exists whenever [resources.New] accepts the configuration. *)
Theorem asUser_appends_markers env user groups w :
  user ≠ "" →
  let gs := (groups ++ ["system:authenticated"; "system:authenticated:oauth"])%list in
  (∀ client w',
      asUser env user groups w = (Ok client, w') →
      rest.UserName (rest.Impersonate (resources.config client)) = user ∧
      rest.Groups (rest.Impersonate (resources.config client)) = gs) ∧
  (New_error env (config_as w user gs) = None →
   ∃ client w', asUser env user groups w = (Ok client, w')) ∧
  (∀ g, g ∈ gs ↔ g ∈ groups ∨ g = "system:authenticated"
                 ∨ g = "system:authenticated:oauth") ∧
  count_occ String.string_dec gs "system:authenticated"
  = S (count_occ String.string_dec groups "system:authenticated") ∧
  count_occ String.string_dec gs "system:authenticated:oauth"
  = S (count_occ String.string_dec groups "system:authenticated:oauth") ∧
  (("system:authenticated" ∉ groups → count_occ String.string_dec gs "system:authenticated" = 1) ∧
   ("system:authenticated:oauth" ∉ groups →
    count_occ String.string_dec gs "system:authenticated:oauth" = 1)).
Proof.
  intros Hne gs.
  assert (Hm1 : count_occ String.string_dec gs "system:authenticated"
                = S (count_occ String.string_dec groups "system:authenticated")).
  { unfold gs. rewrite count_occ_two_markers. cbn. lia. }
  assert (Hm2 : count_occ String.string_dec gs "system:authenticated:oauth"
                = S (count_occ String.string_dec groups "system:authenticated:oauth")).
  { unfold gs. rewrite count_occ_two_markers. cbn. lia. }
  repeat split.
  - rewrite asUser_unfold, (groups_stored_user _ _ Hne) in H. cbn zeta in H.
    destruct (New_error env _); inversion H; reflexivity.
  - rewrite asUser_unfold, (groups_stored_user _ _ Hne) in H. cbn zeta in H.
    destruct (New_error env _); inversion H; reflexivity.
  - intros Hnew. rewrite asUser_unfold, (groups_stored_user _ _ Hne). cbn zeta.
    fold gs. rewrite Hnew. eauto.
  - unfold gs. rewrite elem_of_app, !elem_of_cons, elem_of_nil. tauto.
  - unfold gs. rewrite elem_of_app, !elem_of_cons, elem_of_nil. tauto.
  - exact Hm1.
  - exact Hm2.
  - intros Hnot. rewrite Hm1. f_equal.
    apply count_occ_not_In. rewrite <- list_elem_of_In. exact Hnot.
  - intros Hnot. rewrite Hm2. f_equal.
    apply count_occ_not_In. rewrite <- list_elem_of_In. exact Hnot.
Qed.

Lemma asUser_appends_markers_witness :
  ∃ client w',
    asUser webhook_cluster "test-user@redhat.com" ["dedicated-admins"] world0
    = (Ok client, w') ∧
    rest.Groups (rest.Impersonate (resources.config client))
    = ["dedicated-admins"; "system:authenticated"; "system:authenticated:oauth"].
Proof.
  pose proof (asUser_appends_markers webhook_cluster "test-user@redhat.com"
                ["dedicated-admins"] world0 ltac:(discriminate)) as H.
  cbv zeta in H. destruct H as (Hcl & Hex & _).
  destruct (Hex eq_refl) as (client & w' & Hrun).
  exists client, w'. split; [exact Hrun|].
  exact (proj2 (Hcl client w' Hrun)).
Defined.

(** C3, as stated, fails: [asUser(h, "", "dedicated-admins")] stores, and
    builds its client with, an impersonation configuration that names the
    group dedicated-admins: the guard on the user skips only the two
    markers, not the impersonation. *)
Lemma asUser_empty_user_keeps_groups :
  (∃ client w',
      asUser webhook_cluster "" ["dedicated-admins"] world0 = (Ok client, w') ∧
      rest.Impersonate (resources.config client)
      = {| rest.UserName := ""; rest.Groups := ["dedicated-admins"] |} ∧
      rest.Impersonate (helper.GetConfig (var_h w'))
      = {| rest.UserName := ""; rest.Groups := ["dedicated-admins"] |}) ∧
  ¬ empty_user_never_impersonates.
Proof.
  split.
  - eexists _, _. split; [reflexivity|]. split; reflexivity.
  - intros Hclaim.
    specialize (Hclaim webhook_cluster ["dedicated-admins"] world0 _ _ eq_refl).
    discriminate Hclaim.
Qed.

(** C3, amended: with the empty user, [asUser] stores and builds the client
    with an identity whose user name is empty and whose groups are the
    caller's, untouched: the two markers are not added.  With no groups
    given (as at every call in the suite) that identity is the empty one,
    whatever the helper impersonated before, so no impersonation is applied
    and the client has the ambient credential; with groups given it is not
    the empty one.  The rest of the configuration is the helper's own. *)
Theorem asUser_empty_user_is_ambient env groups w :
  let ident := {| rest.UserName := ""; rest.Groups := groups |} in
  let cfg := {| rest.Host := rest.Host (helper.restConfig (var_h w));
                rest.Impersonate := ident |} in
  asUser env "" groups w
  = (match New_error env cfg with
     | None => Ok {| resources.config := cfg |}
     | Some _ => Failed "failed to create resources client object"
     end,
     set_h w (helper.Impersonate (var_h w) ident)) ∧
  rest.Impersonate (helper.GetConfig (var_h (asUser env "" groups w).2)) = ident ∧
  (∀ client w',
      asUser env "" groups w = (Ok client, w') →
      rest.UserName (rest.Impersonate (resources.config client)) = "" ∧
      rest.Groups (rest.Impersonate (resources.config client)) = groups ∧
      rest.Host (resources.config client) = rest.Host (helper.restConfig (var_h w)) ∧
      ∀ marker, marker ∈ ["system:authenticated"; "system:authenticated:oauth"] →
                count_occ String.string_dec
                  (rest.Groups (rest.Impersonate (resources.config client))) marker
                = count_occ String.string_dec groups marker) ∧
  rest.Impersonate (helper.GetConfig (var_h (asUser env "" [] w).2))
  = {| rest.UserName := ""; rest.Groups := [] |} ∧
  (∀ client w',
      asUser env "" [] w = (Ok client, w') →
      rest.Impersonate (resources.config client)
      = {| rest.UserName := ""; rest.Groups := [] |}) ∧
  (groups ≠ [] →
   rest.Impersonate (helper.GetConfig (var_h (asUser env "" groups w).2))
   ≠ {| rest.UserName := ""; rest.Groups := [] |}).
Proof.
  intros ident cfg. rewrite !asUser_unfold. cbn zeta.
  unfold groups_stored, config_as. cbn [String.eqb negb].
  fold ident. fold cfg.
  split; [destruct (New_error env cfg); reflexivity|].
  split; [destruct (New_error env cfg); reflexivity|].
  split.
  { intros client w' Hrun.
    destruct (New_error env cfg); inversion Hrun; subst client.
    cbn. auto. }
  split; [destruct (New_error env _); reflexivity|].
  split.
  - intros client w' Hrun.
    destruct (New_error env _); inversion Hrun; reflexivity.
  - intros Hne Heq. apply Hne.
    destruct (New_error env cfg); cbn in Heq; inversion Heq; reflexivity.
Qed.

(** ** Daemonset readiness *)

(** C4: the match function that [waitForDaemonSetAvailable] hands to the
    wait engine is true exactly when the scheduled, ready and available
    counts all equal the desired count; it is false on desired 3, current 3,
    ready 2, available 2 (so the engine is told "not yet"), true once ready
    and available reach 3, and true when all four counts are zero. *)
Theorem daemonSetAvailable_iff :
  (∀ d, daemonSetAvailable d = true ↔
        appsv1.CurrentNumberScheduled (appsv1.Status d)
        = appsv1.DesiredNumberScheduled (appsv1.Status d) ∧
        appsv1.NumberReady (appsv1.Status d)
        = appsv1.DesiredNumberScheduled (appsv1.Status d) ∧
        appsv1.NumberAvailable (appsv1.Status d)
        = appsv1.DesiredNumberScheduled (appsv1.Status d)) ∧
  daemonSetAvailable (status 3 3 2 2) = false ∧
  daemonSetAvailable (status 3 3 3 3) = true ∧
  daemonSetAvailable (status 0 0 0 0) = true ∧
  (∀ env client name namespace w,
      ∃ ds, calls (waitForDaemonSetAvailable env client name namespace w).2
            = (calls w ++ [WaitForResourceMatch client ds daemonSetAvailable])%list ∧
            metav1.Name (appsv1.ObjectMeta ds) = name ∧
            metav1.Namespace (appsv1.ObjectMeta ds) = namespace).
Proof.
  split; [|repeat split].
  - intros d. unfold daemonSetAvailable. cbn zeta.
    rewrite !andb_true_iff, !Z.eqb_eq. tauto.
  - intros env client name namespace w. eexists. cbn. repeat split.
Qed.

(** ** Two identities on one helper *)

(** C1, as stated, fails: when [asUser(h, "alice")] and [asUser(h, "bob")]
    run at the same time and both store their identity on the helper before
    either builds its client, the client returned for alice is built with
    bob's identity. *)
Lemma asUser_interleaved_takes_other_identity :
  (let '(a, b, w') :=
     interleave webhook_cluster [true; false; true; false]
       (At_asUser "alice" []) (At_asUser "bob" []) world0 in
   identity_of a
   = Some {| rest.UserName := "bob";
             rest.Groups := ["system:authenticated"; "system:authenticated:oauth"] |} ∧
   identity_of b = identity_of a) ∧
  ¬ clients_isolated.
Proof.
  split; [split; reflexivity|].
  intros Hclaim.
  destruct (Hclaim webhook_cluster [true; false; true; false] world0
              "alice" [] "bob" [] _ _ _ _ _ eq_refl eq_refl eq_refl) as [HA _].
  discriminate HA.
Qed.

(** Two steps of a goroutine that nothing interrupts are a call of [asUser]. *)
Lemma step_step_asUser env user groups w :
  (let (g, w1) := step env (At_asUser user groups) w in step env g w1)
  = (Returned (asUser env user groups w).1, (asUser env user groups w).2).
Proof.
  unfold asUser, bind. cbn.
  destruct (resources_New env _); reflexivity.
Qed.

(** The schedule first, first, second, second is the two calls in sequence. *)
Lemma interleave_one_after_the_other env a b w userA groupsA userB groupsB :
  a = At_asUser userA groupsA →
  b = At_asUser userB groupsB →
  interleave env [true; true; false; false] a b w
  = (Returned (asUser env userA groupsA w).1,
     Returned (asUser env userB groupsB (asUser env userA groupsA w).2).1,
     (asUser env userB groupsB (asUser env userA groupsA w).2).2).
Proof.
  intros -> ->.
  pose proof (step_step_asUser env userA groupsA w) as HA.
  pose proof (step_step_asUser env userB groupsB (asUser env userA groupsA w).2) as HB.
  cbn [interleave].
  destruct (step env (At_asUser userA groupsA) w) as [a1 w1].
  destruct (step env a1 w1) as [a2 w2].
  inversion HA; subst a2 w2.
  destruct (step env (At_asUser userB groupsB) _) as [b1 w3].
  destruct (step env b1 w3) as [b2 w4].
  inversion HB; subst b2 w4. reflexivity.
Qed.

(** C1, amended: the identity is stored on the shared helper, not applied
    per call.  When two calls of [asUser] or [asServiceAccount], in any
    combination, run one after the other on the same helper, each client is
    built with the identity of its own call, and the helper is left holding
    the second identity only, with the [ServiceAccount] of the last
    [asServiceAccount].  Nothing is claimed for calls that overlap. *)
Theorem asUser_sequential_identities env w userA groupsA userB groupsB :
  (∀ cfg, New_error env cfg = None) →
  let identA := {| rest.UserName := userA; rest.Groups := groups_stored userA groupsA |} in
  let identB := {| rest.UserName := userB; rest.Groups := groups_stored userB groupsB |} in
  ∃ clientA clientB w1 w2,
    asUser env userA groupsA w = (Ok clientA, w1) ∧
    asUser env userB groupsB w1 = (Ok clientB, w2) ∧
    interleave env [true; true; false; false]
      (At_asUser userA groupsA) (At_asUser userB groupsB) w
    = (Returned (Ok clientA), Returned (Ok clientB), w2) ∧
    rest.Impersonate (resources.config clientA) = identA ∧
    rest.Impersonate (resources.config clientB) = identB ∧
    rest.Impersonate (helper.GetConfig (var_h w1)) = identA ∧
    rest.Impersonate (helper.GetConfig (var_h w2)) = identB ∧
    (∀ c1 c2 : IdentityCall,
        ∃ client1 client2 v1 v2,
          identity_call env c1 w = (Ok client1, v1) ∧
          identity_call env c2 v1 = (Ok client2, v2) ∧
          rest.Impersonate (resources.config client1) = identity_asked c1 ∧
          rest.Impersonate (resources.config client2) = identity_asked c2 ∧
          rest.Impersonate (helper.GetConfig (var_h v1)) = identity_asked c1 ∧
          rest.Impersonate (helper.GetConfig (var_h v2)) = identity_asked c2 ∧
          helper.ServiceAccount (var_h v1)
          = service_account_after c1 (helper.ServiceAccount (var_h w)) ∧
          helper.ServiceAccount (var_h v2)
          = service_account_after c2
              (service_account_after c1 (helper.ServiceAccount (var_h w)))) ∧
    (∀ sa1 sa2,
        ∃ client1 client2 v2,
          interleave env [true; true; true; false; false; false]
            (At_asServiceAccount sa1) (At_asServiceAccount sa2) w
          = (Returned (Ok client1), Returned (Ok client2), v2) ∧
          rest.Impersonate (resources.config client1)
          = identity_asked (CallAsServiceAccount sa1) ∧
          rest.Impersonate (resources.config client2)
          = identity_asked (CallAsServiceAccount sa2) ∧
          helper.ServiceAccount (var_h v2) = sa2).
Proof.
  intros Hnew identA identB.
  eexists _, _, _, _.
  split; [rewrite asUser_unfold; cbn zeta; rewrite Hnew; reflexivity|].
  split; [rewrite asUser_unfold; cbn zeta; rewrite Hnew; reflexivity|].
  split.
  { rewrite (interleave_one_after_the_other env _ _ w userA groupsA userB groupsB
               eq_refl eq_refl), !asUser_unfold.
    cbn zeta.
    rewrite !Hnew. reflexivity. }
  do 4 (split; [reflexivity|]).
  split.
  - intros c1 c2.
    destruct c1, c2; eexists _, _, _, _;
      (split; [unfold identity_call, asServiceAccount, bind, modify;
               rewrite asUser_unfold; cbn zeta; rewrite Hnew; reflexivity|]);
      (split; [unfold identity_call, asServiceAccount, bind, modify;
               rewrite asUser_unfold; cbn zeta; rewrite Hnew; reflexivity|]);
      repeat split.
  - intros sa1 sa2. eexists _, _, _.
    split; [cbn [interleave step]; unfold asUser_client, bind, gets; cbn;
            repeat (unfold resources_New; rewrite Hnew; cbn); reflexivity|].
    repeat split.
Qed.

Lemma asUser_sequential_identities_witness :
  (∃ clientA clientB w1 w2,
      asUser webhook_cluster "alice" [] world0 = (Ok clientA, w1) ∧
      asUser webhook_cluster "bob" [] w1 = (Ok clientB, w2) ∧
      rest.UserName (rest.Impersonate (resources.config clientA)) = "alice" ∧
      rest.UserName (rest.Impersonate (resources.config clientB)) = "bob" ∧
      rest.UserName (rest.Impersonate (helper.GetConfig (var_h w2))) = "bob") ∧
  (∃ client1 client2 v1 v2,
      asServiceAccount webhook_cluster "system:serviceaccount:a:sa" world0
      = (Ok client1, v1) ∧
      asUser webhook_cluster "" [] v1 = (Ok client2, v2) ∧
      rest.UserName (rest.Impersonate (resources.config client1))
      = "system:serviceaccount:a:sa" ∧
      rest.Impersonate (resources.config client2)
      = {| rest.UserName := ""; rest.Groups := [] |} ∧
      helper.ServiceAccount (var_h v2) = "system:serviceaccount:a:sa").
Proof.
  destruct (asUser_sequential_identities webhook_cluster world0 "alice" [] "bob" []
              (fun _ => eq_refl))
    as (clientA & clientB & w1 & w2 & HA & HB & _ & HiA & HiB & _ & Hh & Hany & _).
  split.
  - exists clientA, clientB, w1, w2.
    rewrite HiA, HiB, Hh. repeat split; assumption.
  - destruct (Hany (CallAsServiceAccount "system:serviceaccount:a:sa") (CallAsUser "" []))
      as (client1 & client2 & v1 & v2 & H1 & H2 & Hi1 & Hi2 & _ & _ & _ & Hsa).
    exists client1, client2, v1, v2.
    rewrite Hi1, Hi2, Hsa. repeat split; assumption.
Defined.

(** ** Running the specs *)

(** Rewriting with the known answers of the cluster, in the order of the
    calls. *)
Ltac step_calls :=
  cbn -[app]; rewrite <- ?app_assoc; cbn [app].
Ltac unfold_names :=
  unfold status in *;
  unfold namespaceName, configMapName, secretName, serviceName, daemonsetName,
    privilegedNamespace, unprivilegedNamespace in *.
Ltac use_answers :=
  unfold_names; rewrite ?app_nil_r in *; step_calls;
  repeat match goal with
         | H : respond _ _ _ = _ |- _ => rewrite H; clear H; step_calls
         end.
Ltac known_answers H n :=
  match n with
  | O => idtac
  | S ?m => let Hm := fresh "Hanswer" in
            pose proof (H m ltac:(lia)) as Hm; cbn in Hm; known_answers H m
  end.

(** The identity helpers when [resources.New] accepts every configuration. *)
Section Running.

Variable env : Cluster.
Hypothesis New_accepts : ∀ cfg, New_error env cfg = None.

Lemma asUser_ok user groups w :
  asUser env user groups w
  = (Ok {| resources.config := config_as w user (groups_stored user groups) |},
     set_h w (helper.Impersonate (var_h w)
                {| rest.UserName := user; rest.Groups := groups_stored user groups |})).
Proof. rewrite asUser_unfold. cbn zeta. rewrite New_accepts. reflexivity. Qed.

Lemma asServiceAccount_ok sa w :
  asServiceAccount env sa w
  = (Ok {| resources.config := config_as w sa (groups_stored sa []) |},
     set_h w {| helper.ServiceAccount := sa;
                helper.restConfig := config_as w sa (groups_stored sa []);
                helper.proj := helper.proj (var_h w) |}).
Proof. unfold asServiceAccount, bind, modify. rewrite asUser_ok. reflexivity. Qed.

End Running.

(** The pod operations on a pointer to a live object. *)
Lemma withNamespace_ok w l p namespace :
  heap w !! l = Some p →
  withNamespace (Some l) namespace w
  = (Ok (Some l), set_heap w (<[l := set_Namespace p namespace]> (heap w))).
Proof. intros Hp. unfold withNamespace, bind, deref. rewrite Hp. reflexivity. Qed.

Lemma client_Create_ok env client w l p :
  heap w !! l = Some p →
  client_Create env client (Some l) w
  = (Ok (respond env (calls w) (Create client p)),
     set_calls w (calls w ++ [Create client p])%list).
Proof. intros Hp. unfold client_Create, bind, deref. rewrite Hp. reflexivity. Qed.

Lemma client_Delete_ok env client w l p :
  heap w !! l = Some p →
  client_Delete env client (Some l) w
  = (Ok (respond env (calls w) (Delete client p)),
     set_calls w (calls w ++ [Delete client p])%list).
Proof. intros Hp. unfold client_Delete, bind, deref. rewrite Hp. reflexivity. Qed.

(** Writing through a live pointer, then reading it back. *)
Lemma heap_insert_lookup (hp : list v1.Pod) l p q :
  hp !! l = Some p → <[l := q]> hp !! l = Some q.
Proof. intros Hp. apply list_lookup_insert_eq. eapply lookup_lt_Some, Hp. Qed.

Lemma set_Namespace_twice p a b :
  set_Namespace (set_Namespace p a) b = set_Namespace p b.
Proof. reflexivity. Qed.

(** What lies behind the pod pointer after any number of writes. *)
Ltac heap_lookup :=
  cbn; first [eassumption | eapply heap_insert_lookup; heap_lookup | reflexivity].

(** The service-account name is never empty, so it gets the markers. *)
Lemma groups_stored_account project :
  groups_stored (adminProjectServiceAccount project) []
  = ["system:authenticated"; "system:authenticated:oauth"].
Proof. reflexivity. Qed.

(** Running a spec body one call at a time. *)
Ltac simp_run :=
  rewrite ?groups_stored_account in *;
  unfold config_as, groups_stored in *; unfold_names;
  cbn -[app insert lookup asUser asServiceAccount withNamespace client_Create client_Delete
        adminProjectServiceAccount] in *;
  rewrite <- ?app_assoc in *; rewrite ?app_nil_r in *; cbn [app] in *;
  rewrite ?set_Namespace_twice in *.

Ltac exec_step :=
  first
    [ rewrite asUser_ok by assumption
    | rewrite asServiceAccount_ok by assumption
    | erewrite withNamespace_ok by heap_lookup
    | erewrite client_Create_ok by heap_lookup
    | erewrite client_Delete_ok by heap_lookup
    | match goal with
      | H : respond _ _ _ = _ |- _ => rewrite H; clear H
      | H : apierrors.IsForbidden _ = _ |- _ => rewrite H; clear H
      end ].

Ltac exec := simp_run; repeat (exec_step; simp_run).

(** [AfterEach] on a live pod: one [Delete] with the client of
    [asUser(h, "")]; only an error other than NotFound fails. *)
Lemma AfterEach_ok env w l p :
  (∀ cfg, New_error env cfg = None) →
  var_pod w = Some l →
  heap w !! l = Some p →
  let deletion := Delete (ambient_client w) p in
  let e := respond env (calls w) deletion in
  AfterEach env w
  = (if negb (apierrors.IsNotFound e)
     then match e with
          | None => Ok tt
          | Some _ => Failed "failed to delete test pod"
          end
     else Ok tt,
     set_calls (set_h w (helper.Impersonate (var_h w)
                           {| rest.UserName := ""; rest.Groups := [] |}))
       (calls w ++ [deletion])%list).
Proof.
  intros Hnew Hv Hp deletion e.
  unfold AfterEach, bind, gets. rewrite asUser_ok by assumption.
  cbn [var_pod set_h]. rewrite Hv.
  erewrite client_Delete_ok by (cbn; eassumption).
  subst e deletion. unfold ambient_client, groups_stored. cbn.
  destruct (respond env _ _) as [[[]|]|]; reflexivity.
Qed.

(** ** The existence spec *)

(** C7: the existence spec builds its client with [asUser(h, "")], that is
    with the empty identity, and with it gets the namespace
    openshift-validation-webhook, the configmap webhook-cert, the secret
    webhook-cert and the service validation-webhook, once each and in this
    order, then hands the daemonset validation-webhook to the wait engine
    instead of getting it.  With no error it passes after these five calls;
    at the first call answered with an error, a NotFound like any other, it
    fails there and makes no further call. *)
Theorem existence_spec_calls env w :
  New_error env (resources.config (ambient_client w)) = None →
  let client := ambient_client w in
  let cs := existence_calls client in
  let run := It_exists_and_is_running env w in
  rest.Impersonate (resources.config client)
  = {| rest.UserName := ""; rest.Groups := [] |} ∧
  ((∀ k, k < 5 → answer env (calls w) cs k = None) →
   run.1 = Ok tt ∧ calls run.2 = (calls w ++ cs)%list) ∧
  (∀ k e, k < 5 →
          (∀ j, j < k → answer env (calls w) cs j = None) →
          answer env (calls w) cs k = Some e →
          (∃ msg, run.1 = Failed msg) ∧ calls run.2 = (calls w ++ take (S k) cs)%list).
Proof.
  intros Hnew client cs run.
  assert (Hrun : run = It_exists_and_is_running env w) by reflexivity.
  unfold It_exists_and_is_running, client_Get, waitForDaemonSetAvailable, remote, bind
    in Hrun.
  rewrite asUser_unfold in Hrun. cbn zeta in Hrun.
  unfold groups_stored in Hrun. cbn [String.eqb negb] in Hrun.
  unfold ambient_client in Hnew. cbn [resources.config] in Hnew.
  rewrite Hnew in Hrun. fold (ambient_client w) in Hrun. fold client in Hrun.
  clearbody run. subst run.
  split; [reflexivity|]. split.
  - intros Hall. known_answers Hall 5. use_answers. split; reflexivity.
  - intros k e Hk Hbefore Hat.
    destruct k as [|[|[|[|[|k]]]]];
      [ known_answers Hbefore 0 | known_answers Hbefore 1 | known_answers Hbefore 2
      | known_answers Hbefore 3 | known_answers Hbefore 4 | lia ];
      cbn in Hat; use_answers; (split; [eexists; reflexivity | reflexivity]).
Qed.

Lemma existence_spec_calls_witness :
  (It_exists_and_is_running webhook_cluster world0).1 = Ok tt ∧
  calls (It_exists_and_is_running webhook_cluster world0).2
  = existence_calls (ambient_client world0).
Proof.
  destruct (existence_spec_calls webhook_cluster world0 eq_refl) as (_ & Hall & _).
  apply Hall. intros k Hk.
  destruct k as [|[|[|[|[|k]]]]]; [reflexivity ..|lia].
Defined.

Example existence_spec_missing_secret :
  (It_exists_and_is_running cluster_without_secret world0).1
  = Failed "failed to get secret webhook-cert" ∧
  calls (It_exists_and_is_running cluster_without_secret world0).2
  = take 3 (existence_calls (ambient_client world0)).
Proof. split; reflexivity. Qed.

(** ** The authorization specs *)

(** C8: the pod of a spec is a new object named by a new draw of
    [envconf.RandomName("osde2e", 12)], with tolerations for the master and
    the infra node roles.  "are blocked" creates it as test-user@redhat.com
    with group dedicated-admins in openshift-backplane, as majora in
    openshift-backplane and as majora in openshift-logging, in this order;
    it passes when all three answers are Forbidden and fails at the first
    that is not (a success included), making no further call.  "are allowed"
    creates it once in openshift-backplane as
    system:serviceaccount:<current project>:dedicated-admin-project and
    passes exactly when that create returns no error. *)
Theorem authorization_spec_calls env w l p :
  (∀ cfg, New_error env cfg = None) →
  var_pod w = Some l →
  heap w !! l = Some p →
  let podP := set_Namespace p "openshift-backplane" in
  let podU := set_Namespace p "openshift-logging" in
  let markers := ["system:authenticated"; "system:authenticated:oauth"] in
  let admin :=
    {| resources.config := config_as w "test-user@redhat.com" ("dedicated-admins" :: markers) |} in
  let majora := {| resources.config := config_as w "majora" markers |} in
  let sa := "system:serviceaccount:" ++ helper.CurrentProject (var_h w)
            ++ ":dedicated-admin-project" in
  let account := {| resources.config := config_as w sa markers |} in
  let blocked := [Create admin podP; Create majora podP; Create majora podU] in
  let run_b := It_are_blocked env w in
  let run_a := It_are_allowed env w in
  ((∀ k, k < 3 → apierrors.IsForbidden (answer env (calls w) blocked k) = true) →
   run_b.1 = Ok tt ∧ calls run_b.2 = (calls w ++ blocked)%list) ∧
  (∀ k, k < 3 →
        (∀ j, j < k → apierrors.IsForbidden (answer env (calls w) blocked j) = true) →
        apierrors.IsForbidden (answer env (calls w) blocked k) = false →
        run_b.1 = Failed "expected forbidden error" ∧
        calls run_b.2 = (calls w ++ take (S k) blocked)%list) ∧
  calls run_a.2 = (calls w ++ [Create account podP])%list ∧
  (respond env (calls w) (Create account podP) = None → run_a.1 = Ok tt) ∧
  (∀ e, respond env (calls w) (Create account podP) = Some e →
        run_a.1 = Failed "failed to create pod") ∧
  (∀ w0, let b := BeforeEach env w0 in
         let name := RandomName env "osde2e" 12 (draws w0) in
         b.1 = Ok tt ∧
         draws b.2 = S (draws w0) ∧
         var_pod b.2 = Some (length (heap w0)) ∧
         heap b.2 !! length (heap w0) = Some (testPod name) ∧
         metav1.Name (v1.ObjectMeta (testPod name)) = name ∧
         v1.Key <$> v1.Tolerations (v1.Spec (testPod name))
         = ["node-role.kubernetes.io/master"; "node-role.kubernetes.io/infra"]).
Proof.
  intros Hnew Hv Hp podP podU markers admin majora sa account blocked run_b run_a.
  assert (Hb : run_b = It_are_blocked env w) by reflexivity.
  assert (Ha : run_a = It_are_allowed env w) by reflexivity.
  clearbody run_b run_a.
  unfold It_are_blocked, asDedicatedAdmin, bind, gets, modify in Hb.
  unfold It_are_allowed, bind, gets, modify in Ha.
  rewrite Hv in Hb. subst podP podU markers admin majora sa account blocked.
  change ("system:serviceaccount:" ++ helper.CurrentProject (var_h w)
          ++ ":dedicated-admin-project")
    with (adminProjectServiceAccount (helper.CurrentProject (var_h w))).
  split; [|split; [|split; [|split; [|split]]]].
  - intros Hall. known_answers Hall 3. subst run_a run_b. exec. split; reflexivity.
  - intros k Hk Hbefore Hat. subst run_a run_b.
    destruct k as [|[|[|k]]];
      [ known_answers Hbefore 0 | known_answers Hbefore 1 | known_answers Hbefore 2 | lia ];
      cbn in Hat; exec; (split; reflexivity).
  - subst run_a run_b. exec. rewrite Hv. exec.
    destruct (respond env _ _); reflexivity.
  - intros Hat. subst run_a run_b. exec. rewrite Hv. exec. reflexivity.
  - intros e Hat. subst run_a run_b. exec. rewrite Hv. exec. reflexivity.
  - intros w0. cbn. repeat split.
    rewrite lookup_app_r by lia. rewrite Nat.sub_diag. reflexivity.
Qed.

Lemma authorization_spec_calls_witness :
  (It_are_blocked webhook_cluster world1).1 = Ok tt ∧
  length (calls (It_are_blocked webhook_cluster world1).2) = 3 ∧
  (It_are_allowed webhook_cluster world1).1 = Ok tt.
Proof.
  destruct (authorization_spec_calls webhook_cluster world1 0 (testPod "osde2e-0")
              (fun _ => eq_refl) eq_refl eq_refl)
    as (Hblocked & _ & _ & Hallowed & _).
  destruct Hblocked as [Hpass Hcalls].
  { intros k Hk. destruct k as [|[|[|k]]]; [reflexivity ..|lia]. }
  split; [exact Hpass|]. split; [rewrite Hcalls; reflexivity|].
  apply Hallowed. reflexivity.
Defined.

(** Both specs in the order of the container, on [webhook_cluster]: three
    refused creates, the cleanup, the create of the service account, the
    cleanup; the second spec has a pod of its own with a new name. *)
Example authorization_specs_in_order :
  let w := (run_spec webhook_cluster (It_are_blocked webhook_cluster) world0).2 in
  let run := run_spec webhook_cluster (It_are_allowed webhook_cluster) w in
  run.1 = Ok tt ∧
  (match calls run.2 with
   | [Create a p1; Create b p2; Create c p3; Delete d p4; Create e p5; Delete f p6] =>
       (rest.UserName (rest.Impersonate (resources.config a)),
        metav1.Namespace (v1.ObjectMeta p1), metav1.Name (v1.ObjectMeta p1))
       = ("test-user@redhat.com", "openshift-backplane", "osde2e-0") ∧
       (rest.UserName (rest.Impersonate (resources.config b)),
        metav1.Namespace (v1.ObjectMeta p2))
       = ("majora", "openshift-backplane") ∧
       (rest.UserName (rest.Impersonate (resources.config c)),
        metav1.Namespace (v1.ObjectMeta p3))
       = ("majora", "openshift-logging") ∧
       (rest.UserName (rest.Impersonate (resources.config d)),
        metav1.Namespace (v1.ObjectMeta p4))
       = ("", "openshift-logging") ∧
       (rest.UserName (rest.Impersonate (resources.config e)),
        metav1.Namespace (v1.ObjectMeta p5), metav1.Name (v1.ObjectMeta p5))
       = ("system:serviceaccount:osde2e-x7k2p:dedicated-admin-project",
          "openshift-backplane", "osde2e-1") ∧
       (rest.UserName (rest.Impersonate (resources.config f)),
        metav1.Namespace (v1.ObjectMeta p6))
       = ("", "openshift-backplane")
   | _ => False
   end).
Proof. vm_compute. repeat split. Qed.

(** ** Cleanup *)

(** C9, as stated, fails: in "are allowed" the pod is created by the
    dedicated-admin-project service account, and [AfterEach] deletes it with
    the client of [asUser(h, "")], the empty identity. *)
Lemma cleanup_deletes_as_ambient :
  (∃ creator deleter p,
      calls (run_spec webhook_cluster (It_are_allowed webhook_cluster) world0).2
      = [Create creator p; Delete deleter p] ∧
      rest.UserName (rest.Impersonate (resources.config creator))
      = "system:serviceaccount:osde2e-x7k2p:dedicated-admin-project" ∧
      rest.UserName (rest.Impersonate (resources.config deleter)) = "") ∧
  ¬ cleanup_by_creator.
Proof.
  split.
  - eexists _, _, _. split; [reflexivity|]. split; reflexivity.
  - intros Hclaim.
    specialize (Hclaim webhook_cluster world0 [] _ _ _ _ eq_refl).
    discriminate Hclaim.
Qed.

(** C9, amended: [AfterEach] runs after the body of every spec of the
    container, whether the body passed or failed, on the state the body
    left.  It deletes the pod once, with the client of [asUser(h, "")] (the
    empty identity, whoever created the pod); a nil answer or a NotFound
    passes, and any other error fails the spec with "failed to delete test
    pod". *)
Theorem cleanup_after_each env body w l p :
  (∀ cfg, New_error env cfg = None) →
  let w2 := (body (BeforeEach env w).2).2 in
  var_pod w2 = Some l →
  heap w2 !! l = Some p →
  let r2 := (body (BeforeEach env w).2).1 in
  let deletion := Delete (ambient_client w2) p in
  let e := respond env (calls w2) deletion in
  let spec := run_spec env body w in
  rest.Impersonate (resources.config (ambient_client w2))
  = {| rest.UserName := ""; rest.Groups := [] |} ∧
  calls spec.2 = (calls w2 ++ [deletion])%list ∧
  spec = (match r2 with Ok _ => (AfterEach env w2).1 | Failed msg => Failed msg end,
          (AfterEach env w2).2) ∧
  (e = None ∨ e = Some (StatusError StatusReasonNotFound) → (AfterEach env w2).1 = Ok tt) ∧
  (∀ err, e = Some err → err ≠ StatusError StatusReasonNotFound →
          (AfterEach env w2).1 = Failed "failed to delete test pod" ∧
          ∃ msg, spec.1 = Failed msg).
Proof.
  intros Hnew w2 Hv Hp r2 deletion e spec.
  assert (Hspec : spec = (match r2 with
                          | Ok _ => (AfterEach env w2).1
                          | Failed msg => Failed msg
                          end, (AfterEach env w2).2)).
  { subst spec r2 w2. unfold run_spec.
    destruct (BeforeEach env w) as [r1 w1] eqn:HB.
    assert (Hr1 : r1 = Ok tt).
    { change r1 with (r1, w1).1. rewrite <- HB. reflexivity. }
    subst r1. cbn [fst snd].
    destruct (body w1) as [r b]. cbn [fst snd].
    destruct (AfterEach env b); reflexivity. }
  pose proof (AfterEach_ok env w2 l p Hnew Hv Hp) as Hafter.
  cbv zeta in Hafter. fold deletion in Hafter. fold e in Hafter.
  clearbody spec. subst spec.
  split; [reflexivity|]. split; [rewrite Hafter; reflexivity|].
  split; [reflexivity|]. split.
  - rewrite Hafter. intros [-> | ->]; reflexivity.
  - intros err He Hne. rewrite Hafter, He. cbn [fst snd].
    assert (Hnf : apierrors.IsNotFound (Some err) = false).
    { destruct err as [[]|]; try reflexivity. contradiction. }
    rewrite Hnf. cbn. split; [reflexivity|].
    destruct r2; eauto.
Qed.

Lemma cleanup_after_each_witness :
  (run_spec webhook_cluster (It_are_allowed webhook_cluster) world0).1 = Ok tt ∧
  length (calls (run_spec webhook_cluster (It_are_allowed webhook_cluster) world0).2) = 2.
Proof.
  destruct (cleanup_after_each webhook_cluster (It_are_allowed webhook_cluster) world0 0
              (set_Namespace (testPod "osde2e-0") "openshift-backplane")
              (fun _ => eq_refl) eq_refl eq_refl)
    as (_ & Hcalls & Hspec & _).
  split; [rewrite Hspec; reflexivity | rewrite Hcalls; reflexivity].
Defined.

(** ** The pod is one shared object *)




(** * Further properties of the suite *)

(** ** The existence spec only reads *)

(** X1: whatever the cluster answers, and whether or not the client can be
    built, the existence spec sends only reading calls (a prefix of its
    five), and leaves the pods, the pod variable, the random draws and the
    helper's service account, project and connection as they were; the
    helper ends with the empty identity. *)
Theorem existence_spec_read_only env w :
  let run := It_exists_and_is_running env w in
  (∃ n : nat, (n ≤ 5)%nat ∧
        calls run.2 = (calls w ++ take n (existence_calls (ambient_client w)))%list) ∧
  (∀ c, c ∈ drop (length (calls w)) (calls run.2) → is_read_only c = true) ∧
  heap run.2 = heap w ∧ var_pod run.2 = var_pod w ∧ draws run.2 = draws w ∧
  var_h run.2 = helper.Impersonate (var_h w) {| rest.UserName := ""; rest.Groups := [] |}.
Proof.
  intros run.
  assert (Hshape : ∃ n : nat, (n ≤ 5)%nat ∧
            run.2 = set_calls (set_h w (helper.Impersonate (var_h w)
                                 {| rest.UserName := ""; rest.Groups := [] |}))
                      (calls w ++ take n (existence_calls (ambient_client w)))%list).
  { subst run.
    unfold It_exists_and_is_running, client_Get, waitForDaemonSetAvailable, remote, bind.
    rewrite asUser_unfold. cbn zeta. unfold groups_stored. cbn [String.eqb negb].
    fold (ambient_client w).
    destruct (New_error env _).
    { exists 0. split; [lia|]. cbn. rewrite app_nil_r. reflexivity. }
    unfold_names. step_calls.
    repeat match goal with
           | |- context [respond env ?h ?c] =>
               destruct (respond env h c); step_calls
           end;
      [ exists 1 | exists 2 | exists 3 | exists 4 | exists 5 | exists 5 ];
      (split; [lia | reflexivity]). }
  destruct Hshape as (n & Hn & Hrun). rewrite Hrun. cbn [calls set_calls heap var_pod draws var_h set_h].
  split; [eauto|]. split; [|repeat split].
  intros c Hc. rewrite drop_app_length in Hc.
  apply elem_of_take in Hc as (i & Hc & _).
  unfold existence_calls in Hc.
  destruct i as [|[|[|[|[|i]]]]]; cbn in Hc; inversion Hc; reflexivity.
Qed.

(** ** A spec from setup to cleanup *)

(** [BeforeEach] cannot fail. *)
Lemma BeforeEach_ok env w : BeforeEach env w = (Ok tt, after_setup env w).
Proof. reflexivity. Qed.

(** After it, the pod variable points to the new object. *)
Lemma after_setup_pod env w :
  var_pod (after_setup env w) = Some (length (heap w)) ∧
  heap (after_setup env w) !! length (heap w)
  = Some (testPod (RandomName env "osde2e" 12 (draws w))).
Proof.
  split; [reflexivity|]. cbn.
  rewrite lookup_app_r by lia. rewrite Nat.sub_diag. reflexivity.
Qed.

(** [AfterEach] runs on what the body left; the body's failure comes first. *)
Lemma run_spec_unfold env body w :
  run_spec env body w
  = (match (body (after_setup env w)).1 with
     | Ok _ => (AfterEach env (body (after_setup env w)).2).1
     | Failed msg => Failed msg
     end,
     (AfterEach env (body (after_setup env w)).2).2).
Proof.
  unfold run_spec. rewrite BeforeEach_ok.
  destruct (body _) as [r b]. cbn [fst snd].
  destruct (AfterEach env b); reflexivity.
Qed.

(** ** When the client cannot be built *)

(** [asUser] when [resources.New] returns an error: the identity is stored,
    then the assertion on the error fails. *)
Lemma asUser_rejected env user groups w :
  (∀ cfg, New_error env cfg ≠ None) →
  asUser env user groups w
  = (Failed "failed to create resources client object",
     set_h w (helper.Impersonate (var_h w)
                {| rest.UserName := user; rest.Groups := groups_stored user groups |})).
Proof.
  intros Hrej. rewrite asUser_unfold. cbn zeta.
  destruct (New_error env _) eqn:E; [reflexivity|]. apply Hrej in E. contradiction.
Qed.

(** X2: when [resources.New] rejects the configuration, [asUser] fails with
    "failed to create resources client object" after it has already stored
    the identity on the helper, and each spec of the suite fails with that
    message without sending anything to the cluster: no get, no create and
    no cleanup delete. *)
Theorem rejected_config_reaches_no_cluster env w :
  (∀ cfg, New_error env cfg ≠ None) →
  let msg := "failed to create resources client object" in
  (∀ user groups,
      (asUser env user groups w).1 = Failed msg ∧
      rest.Impersonate (helper.GetConfig (var_h (asUser env user groups w).2))
      = {| rest.UserName := user; rest.Groups := groups_stored user groups |}) ∧
  ((It_exists_and_is_running env w).1 = Failed msg ∧
   calls (It_exists_and_is_running env w).2 = calls w) ∧
  ((run_spec env (It_are_blocked env) w).1 = Failed msg ∧
   calls (run_spec env (It_are_blocked env) w).2 = calls w) ∧
  ((run_spec env (It_are_allowed env) w).1 = Failed msg ∧
   calls (run_spec env (It_are_allowed env) w).2 = calls w).
Proof.
  intros Hrej msg.
  destruct (after_setup_pod env w) as [Hv Hp].
  assert (Hafter : ∀ w', AfterEach env w'
            = (Failed msg, set_h w' (helper.Impersonate (var_h w')
                                       {| rest.UserName := ""; rest.Groups := [] |}))).
  { intros w'. unfold AfterEach, bind. rewrite asUser_rejected by assumption. reflexivity. }
  split; [|split; [|split]].
  - intros user groups. rewrite asUser_rejected by assumption. split; reflexivity.
  - unfold It_exists_and_is_running, bind. rewrite asUser_rejected by assumption.
    split; reflexivity.
  - rewrite run_spec_unfold.
    assert (Hbody : It_are_blocked env (after_setup env w)
                    = (Failed msg, (It_are_blocked env (after_setup env w)).2)
                      ∧ calls (It_are_blocked env (after_setup env w)).2 = calls w).
    { unfold It_are_blocked, asDedicatedAdmin, bind, gets, modify.
      rewrite Hv. erewrite withNamespace_ok by exact Hp.
      rewrite asUser_rejected by assumption. split; reflexivity. }
    destruct Hbody as [Hbody Hcalls]. rewrite Hbody, Hafter. cbn [fst snd].
    split; [reflexivity|exact Hcalls].
  - rewrite run_spec_unfold.
    assert (Hbody : It_are_allowed env (after_setup env w)
                    = (Failed msg, (It_are_allowed env (after_setup env w)).2)
                      ∧ calls (It_are_allowed env (after_setup env w)).2 = calls w).
    { unfold It_are_allowed, asServiceAccount, bind, gets, modify.
      rewrite asUser_rejected by assumption. split; reflexivity. }
    destruct Hbody as [Hbody Hcalls]. rewrite Hbody, Hafter. cbn [fst snd].
    split; [reflexivity|exact Hcalls].
Qed.

Lemma rejected_config_reaches_no_cluster_witness :
  (run_spec misconfigured_cluster (It_are_allowed misconfigured_cluster) world0).1
  = Failed "failed to create resources client object" ∧
  calls (run_spec misconfigured_cluster (It_are_allowed misconfigured_cluster) world0).2 = [].
Proof.
  destruct (rejected_config_reaches_no_cluster misconfigured_cluster world0
              ltac:(discriminate)) as (_ & _ & _ & Hallowed).
  exact Hallowed.
Defined.

(** ** The helper between calls *)

(** X3: [asUser] keeps no memory of earlier calls: after any earlier
    [asUser] on the same helper, a call returns the same client (or the same
    failure) and leaves the same state as if the earlier call had not
    happened.  Apart from the stored identity it changes nothing: not the
    helper's service account, project or connection, and nothing of the
    pods, the pod variable, the call log or the draws. *)
Theorem asUser_last_call_wins env user1 groups1 user2 groups2 w :
  asUser env user2 groups2 (asUser env user1 groups1 w).2 = asUser env user2 groups2 w ∧
  (let w' := (asUser env user2 groups2 w).2 in
   helper.ServiceAccount (var_h w') = helper.ServiceAccount (var_h w) ∧
   helper.CurrentProject (var_h w') = helper.CurrentProject (var_h w) ∧
   rest.Host (helper.GetConfig (var_h w')) = rest.Host (helper.GetConfig (var_h w)) ∧
   heap w' = heap w ∧ var_pod w' = var_pod w ∧ calls w' = calls w ∧ draws w' = draws w).
Proof.
  rewrite !asUser_unfold. cbn zeta. split.
  - destruct (New_error env (config_as w user1 _)); cbn [snd];
      unfold config_as; cbn; destruct (New_error env _); reflexivity.
  - destruct (New_error env _); cbn; repeat split.
Qed.

(** X4: the service account that "are allowed" writes on the helper stays
    there: whatever the cluster answers and whether or not clients can be
    built, after the whole spec, cleanup included, the helper's service
    account is the admin-project name while its stored identity is the empty
    one again.  "are blocked" and the existence spec never write it. *)
Theorem service_account_outlives_cleanup env w :
  var_h (run_spec env (It_are_allowed env) w).2
  = {| helper.ServiceAccount := adminProjectServiceAccount (helper.CurrentProject (var_h w));
       helper.restConfig := config_as w "" [];
       helper.proj := helper.proj (var_h w) |} ∧
  var_h (run_spec env (It_are_blocked env) w).2
  = {| helper.ServiceAccount := helper.ServiceAccount (var_h w);
       helper.restConfig := config_as w "" [];
       helper.proj := helper.proj (var_h w) |}.
Proof.
  destruct (after_setup_pod env w) as [Hv Hp].
  assert (Hafter : ∀ w', var_h (AfterEach env w').2
            = helper.Impersonate (var_h w') {| rest.UserName := ""; rest.Groups := [] |}).
  { intros w'. unfold AfterEach, bind, gets.
    rewrite asUser_unfold. cbn zeta.
    destruct (New_error env _); [reflexivity|].
    unfold client_Delete, deref, remote, bind. cbn [var_pod heap set_h].
    destruct (var_pod w') as [l|]; [|reflexivity].
    destruct (heap w' !! l); [|reflexivity].
    destruct (respond env _ _) as [[[]|]|]; reflexivity. }
  split; rewrite run_spec_unfold; cbn [snd]; rewrite Hafter.
  - assert (Hbody : var_h (It_are_allowed env (after_setup env w)).2
              = helper.Impersonate
                  (helper.set_ServiceAccount (var_h w)
                     (adminProjectServiceAccount (helper.CurrentProject (var_h w))))
                  {| rest.UserName :=
                       adminProjectServiceAccount (helper.CurrentProject (var_h w));
                     rest.Groups := ["system:authenticated"; "system:authenticated:oauth"] |}).
    { unfold It_are_allowed, asServiceAccount, bind, gets, modify.
      rewrite asUser_unfold. cbn zeta. rewrite groups_stored_account.
      destruct (New_error env _); [reflexivity|].
      cbn [var_pod set_h]. rewrite Hv.
      erewrite withNamespace_ok by (cbn; exact Hp).
      erewrite client_Create_ok by (cbn; eapply heap_insert_lookup; exact Hp).
      destruct (respond env _ _); reflexivity. }
    rewrite Hbody. reflexivity.
  - assert (Hbody : ∃ ident, var_h (It_are_blocked env (after_setup env w)).2
                             = helper.Impersonate (var_h w) ident).
    { unfold It_are_blocked, asDedicatedAdmin, bind, gets, modify.
      rewrite Hv. erewrite withNamespace_ok by exact Hp.
      rewrite asUser_unfold. cbn zeta.
      destruct (New_error env _); [eexists; reflexivity|].
      cbn [var_pod set_h set_pod].
      erewrite client_Create_ok by (cbn; eapply heap_insert_lookup; exact Hp).
      destruct (apierrors.IsForbidden _); [|eexists; reflexivity].
      cbn -[asUser withNamespace client_Create].
      rewrite asUser_unfold. cbn zeta.
      destruct (New_error env _); [eexists; reflexivity|].
      cbn -[withNamespace client_Create insert lookup].
      erewrite client_Create_ok by (cbn; eapply heap_insert_lookup; exact Hp).
      destruct (apierrors.IsForbidden _); [|eexists; reflexivity].
      cbn -[withNamespace client_Create insert lookup].
      erewrite withNamespace_ok by (cbn; eapply heap_insert_lookup; exact Hp).
      erewrite client_Create_ok
        by (cbn; eapply heap_insert_lookup, heap_insert_lookup; exact Hp).
      destruct (apierrors.IsForbidden _); eexists; reflexivity. }
    destruct Hbody as [ident Hbody]. rewrite Hbody. reflexivity.
Qed.

(** ** The authorization specs on every cluster *)

(** "are blocked" on a live pod, by the answers to its creates: it stops at
    the first answer that is not Forbidden, the pod keeps the namespace
    assigned last, and only the identity on the helper changes besides. *)
Lemma It_are_blocked_run env w l p :
  (∀ cfg, New_error env cfg = None) →
  var_pod w = Some l →
  heap w !! l = Some p →
  let markers := ["system:authenticated"; "system:authenticated:oauth"] in
  let admin :=
    {| resources.config := config_as w "test-user@redhat.com" ("dedicated-admins" :: markers) |} in
  let majora := {| resources.config := config_as w "majora" markers |} in
  let podP := set_Namespace p "openshift-backplane" in
  let podU := set_Namespace p "openshift-logging" in
  let blocked := [Create admin podP; Create majora podP; Create majora podU] in
  let f k := apierrors.IsForbidden (answer env (calls w) blocked k) in
  let n := if f 0 then if f 1 then 3 else 2 else 1 in
  let b := It_are_blocked env w in
  b.1 = (if f 0 && f 1 && f 2 then Ok tt else Failed "expected forbidden error") ∧
  calls b.2 = (calls w ++ take n blocked)%list ∧
  var_pod b.2 = Some l ∧
  heap b.2 = <[l := if f 0 && f 1 then podU else podP]> (heap w) ∧
  config_as b.2 "" [] = config_as w "" [] ∧
  draws b.2 = draws w.
Proof.
  intros Hnew Hv Hp markers admin majora podP podU blocked f n b.
  assert (Hb : b = It_are_blocked env w) by reflexivity. clearbody b.
  unfold It_are_blocked, asDedicatedAdmin, bind, gets, modify in Hb.
  rewrite Hv in Hb.
  assert (Hf0 : f 0 = apierrors.IsForbidden (respond env (calls w) (Create admin podP))).
  { subst f. cbn. rewrite app_nil_r. reflexivity. }
  assert (Hf1 : f 1 = apierrors.IsForbidden
                        (respond env (calls w ++ [Create admin podP])
                           (Create majora podP))) by reflexivity.
  assert (Hf2 : f 2 = apierrors.IsForbidden
                        (respond env (calls w ++ [Create admin podP; Create majora podP])
                           (Create majora podU))) by reflexivity.
  subst n. rewrite Hf0, Hf1, Hf2. clear Hf0 Hf1 Hf2. clearbody f. clear f.
  subst markers admin majora podP podU blocked.
  destruct (apierrors.IsForbidden (respond env (calls w) _)) eqn:H1;
    [destruct (apierrors.IsForbidden (respond env (calls w ++ [_]) _)) eqn:H2;
     [destruct (apierrors.IsForbidden (respond env (calls w ++ [_; _]) _)) eqn:H3|]|];
    subst b; exec; cbn [andb]; rewrite ?list_insert_insert_eq;
    repeat split; reflexivity.
Qed.

(** "are allowed" on a live pod, by the answer to its create. *)
Lemma It_are_allowed_run env w l p :
  (∀ cfg, New_error env cfg = None) →
  var_pod w = Some l →
  heap w !! l = Some p →
  let account :=
    {| resources.config :=
         config_as w (adminProjectServiceAccount (helper.CurrentProject (var_h w)))
           ["system:authenticated"; "system:authenticated:oauth"] |} in
  let podP := set_Namespace p "openshift-backplane" in
  let e := respond env (calls w) (Create account podP) in
  let a := It_are_allowed env w in
  a.1 = match e with None => Ok tt | Some _ => Failed "failed to create pod" end ∧
  calls a.2 = (calls w ++ [Create account podP])%list ∧
  var_pod a.2 = Some l ∧
  heap a.2 = <[l := podP]> (heap w) ∧
  config_as a.2 "" [] = config_as w "" [] ∧
  draws a.2 = draws w.
Proof.
  intros Hnew Hv Hp account podP e a.
  assert (Ha : a = It_are_allowed env w) by reflexivity. clearbody a.
  unfold It_are_allowed, bind, gets, modify in Ha.
  subst e account podP.
  destruct (respond env (calls w) _) eqn:He;
    subst a; exec; rewrite Hv; exec; repeat split; first [reflexivity | exact Hv].
Qed.

(** The cleanup after a body that left the pod variable on a live pod and
    the connection as it was. *)
Lemma AfterEach_after env w0 w l q :
  (∀ cfg, New_error env cfg = None) →
  var_pod w = Some l →
  heap w !! l = Some q →
  config_as w "" [] = config_as w0 "" [] →
  let e := respond env (calls w) (Delete (ambient_client w0) q) in
  (AfterEach env w).1
  = (if negb (apierrors.IsNotFound e)
     then match e with None => Ok tt | Some _ => Failed "failed to delete test pod" end
     else Ok tt) ∧
  calls (AfterEach env w).2 = (calls w ++ [Delete (ambient_client w0) q])%list.
Proof.
  intros Hnew Hv Hq Hcfg e.
  rewrite (AfterEach_ok env w l q Hnew Hv Hq). cbn [fst snd calls set_calls].
  subst e. unfold ambient_client. rewrite Hcfg. split; reflexivity.
Qed.



(** The cleanup passes on a nil answer and on NotFound only. *)
Lemma cleanup_verdict (e : error) :
  (if negb (apierrors.IsNotFound e)
   then match e with None => Ok tt | Some _ => Failed "failed to delete test pod" end
   else Ok tt) = Ok tt
  ↔ e = None ∨ e = Some (StatusError StatusReasonNotFound).
Proof.
  destruct e as [[[]|]|]; cbn; split; intros H;
    try reflexivity; try discriminate; try (destruct H; discriminate); auto.
Qed.

(** X6: what a pass guarantees.  [run_spec] gives [Ok] when no assertion of
    the body or of the cleanup failed (a spec timeout is Ginkgo's: it can
    fail a spec besides, never make it pass).  On every cluster where
    clients can be built, that happens for "are blocked" only if its three
    creates were all answered Forbidden and the delete that follows, of a
    pod that was then never created, was answered with nil or NotFound; and
    for "are allowed" only if its create returned no error and the delete
    that the cleanup sent was answered with nil or NotFound. *)
Theorem authorization_pass_guarantees env w :
  (∀ cfg, New_error env cfg = None) →
  let pod := set_Namespace (testPod (RandomName env "osde2e" 12 (draws w))) in
  let markers := ["system:authenticated"; "system:authenticated:oauth"] in
  let admin :=
    {| resources.config := config_as w "test-user@redhat.com" ("dedicated-admins" :: markers) |} in
  let majora := {| resources.config := config_as w "majora" markers |} in
  let account :=
    {| resources.config :=
         config_as w (adminProjectServiceAccount (helper.CurrentProject (var_h w))) markers |} in
  let blocked := [Create admin (pod "openshift-backplane");
                  Create majora (pod "openshift-backplane");
                  Create majora (pod "openshift-logging")] in
  let forbidden k := apierrors.IsForbidden (answer env (calls w) blocked k) in
  let allowed := [Create account (pod "openshift-backplane")] in
  let fine e := e = None ∨ e = Some (StatusError StatusReasonNotFound) in
  let run_b := run_spec env (It_are_blocked env) w in
  let run_a := run_spec env (It_are_allowed env) w in
  (run_b.1 = Ok tt →
   forbidden 0 = true ∧ forbidden 1 = true ∧ forbidden 2 = true ∧
   calls run_b.2
   = (calls w ++ blocked ++ [Delete (ambient_client w) (pod "openshift-logging")])%list ∧
   fine (respond env (calls w ++ blocked)
           (Delete (ambient_client w) (pod "openshift-logging")))) ∧
  (run_a.1 = Ok tt →
   answer env (calls w) allowed 0 = None ∧
   ∃ q, calls run_a.2 = (calls w ++ allowed ++ [Delete (ambient_client w) q])%list ∧
        fine (respond env (calls w ++ allowed) (Delete (ambient_client w) q))).
Proof.
  intros Hnew pod markers admin majora account blocked forbidden allowed fine run_b run_a.
  destruct (after_setup_pod env w) as [Hv Hp].
  assert (Hq : ∀ b q, heap b = <[length (heap w) := q]> (heap (after_setup env w)) →
                      heap b !! length (heap w) = Some q).
  { intros b q ->. eapply heap_insert_lookup, Hp. }
  split.
  - subst run_b. rewrite run_spec_unfold. cbn [fst snd].
    destruct (It_are_blocked_run env _ _ _ Hnew Hv Hp)
      as (Hres & Hcalls & Hv' & Hheap & Hcfg & _).
    cbv zeta in Hres, Hcalls, Hheap.
    change (calls (after_setup env w)) with (calls w) in *.
    change (config_as (after_setup env w)) with (config_as w) in *.
    fold pod in Hres, Hcalls, Hheap. fold markers in Hres, Hcalls, Hheap.
    fold admin in Hres, Hcalls, Hheap. fold majora in Hres, Hcalls, Hheap.
    fold blocked in Hres, Hcalls, Hheap.
    change (apierrors.IsForbidden (answer env (calls w) blocked 0))
      with (forbidden 0) in Hres, Hcalls, Hheap.
    change (apierrors.IsForbidden (answer env (calls w) blocked 1))
      with (forbidden 1) in Hres, Hcalls, Hheap.
    change (apierrors.IsForbidden (answer env (calls w) blocked 2))
      with (forbidden 2) in Hres, Hcalls, Hheap.
    rewrite Hres.
    destruct (forbidden 0); [|discriminate].
    destruct (forbidden 1); [|discriminate].
    destruct (forbidden 2); [|discriminate].
    cbn [andb] in *. apply Hq in Hheap.
    destruct (AfterEach_after env w _ _ _ Hnew Hv' Hheap Hcfg) as [Hdel Hlog].
    cbv zeta in Hdel. rewrite Hdel, Hlog, Hcalls. cbn [take].
    rewrite cleanup_verdict, <- app_assoc. intros Hfine. repeat split. exact Hfine.
  - subst run_a. rewrite run_spec_unfold. cbn [fst snd].
    destruct (It_are_allowed_run env _ _ _ Hnew Hv Hp)
      as (Hres & Hcalls & Hv' & Hheap & Hcfg & _).
    cbv zeta in Hres, Hcalls, Hheap.
    change (calls (after_setup env w)) with (calls w) in *.
    change (config_as (after_setup env w)) with (config_as w) in *.
    change (helper.CurrentProject (var_h (after_setup env w)))
      with (helper.CurrentProject (var_h w)) in *.
    rewrite Hres. unfold answer, allowed. cbn [lookup list_lookup take].
    rewrite app_nil_r.
    destruct (respond env (calls w) _); [discriminate|].
    apply Hq in Hheap.
    destruct (AfterEach_after env w _ _ _ Hnew Hv' Hheap Hcfg) as [Hdel Hlog].
    cbv zeta in Hdel. rewrite Hdel, Hlog, Hcalls.
    rewrite cleanup_verdict, <- app_assoc. intros Hfine.
    split; [reflexivity|]. eexists. split; [reflexivity | exact Hfine].
Qed.

Lemma authorization_pass_guarantees_witness :
  ∃ q, calls (run_spec webhook_cluster (It_are_allowed webhook_cluster) world0).2
       = [Create {| resources.config :=
                      config_as world0
                        "system:serviceaccount:osde2e-x7k2p:dedicated-admin-project"
                        ["system:authenticated"; "system:authenticated:oauth"] |}
            (set_Namespace (testPod "osde2e-0") "openshift-backplane");
          Delete (ambient_client world0) q].
Proof.
  destruct (authorization_pass_guarantees webhook_cluster world0 (fun _ => eq_refl))
    as (_ & Hallowed).
  destruct (Hallowed eq_refl) as (_ & q & Hcalls & _).
  exists q. exact Hcalls.
Defined.

(** X7: a spec writes only its own pod.  On every cluster where clients
    can be built, after "are blocked" or "are allowed" (cleanup included)
    every pod object that existed before is unchanged, exactly one object
    was added, the pod variable points to it, and one name was drawn.  As
    long as no create of the spec succeeded (on success the client writes
    the server's copy back into the object, which lies outside this
    embedding), the new object still has the name drawn for this spec, the
    container and tolerations of [newTestPod], and one of the two target
    namespaces. *)
Theorem spec_writes_only_its_pod env w :
  (∀ cfg, New_error env cfg = None) →
  let pod := set_Namespace (testPod (RandomName env "osde2e" 12 (draws w))) in
  let markers := ["system:authenticated"; "system:authenticated:oauth"] in
  let admin :=
    {| resources.config := config_as w "test-user@redhat.com" ("dedicated-admins" :: markers) |} in
  let majora := {| resources.config := config_as w "majora" markers |} in
  let account :=
    {| resources.config :=
         config_as w (adminProjectServiceAccount (helper.CurrentProject (var_h w))) markers |} in
  let blocked := [Create admin (pod "openshift-backplane");
                  Create majora (pod "openshift-backplane");
                  Create majora (pod "openshift-logging")] in
  let allowed := [Create account (pod "openshift-backplane")] in
  let kept (w' : World) :=
    (∀ l q, heap w !! l = Some q → heap w' !! l = Some q) ∧
    length (heap w') = S (length (heap w)) ∧
    var_pod w' = Some (length (heap w)) ∧
    draws w' = S (draws w) in
  kept (run_spec env (It_are_blocked env) w).2 ∧
  kept (run_spec env (It_are_allowed env) w).2 ∧
  ((∀ k, k < 3 → answer env (calls w) blocked k ≠ None) →
   heap (run_spec env (It_are_blocked env) w).2 !! length (heap w)
   = Some (pod "openshift-backplane") ∨
   heap (run_spec env (It_are_blocked env) w).2 !! length (heap w)
   = Some (pod "openshift-logging")) ∧
  (answer env (calls w) allowed 0 ≠ None →
   heap (run_spec env (It_are_allowed env) w).2 !! length (heap w)
   = Some (pod "openshift-backplane")).
Proof.
  intros Hnew pod markers admin majora account blocked allowed kept.
  destruct (after_setup_pod env w) as [Hv Hp].
  assert (Hafter : ∀ b q,
            var_pod b = Some (length (heap w)) →
            draws b = draws (after_setup env w) →
            heap b = <[length (heap w) := q]> (heap (after_setup env w)) →
            kept (AfterEach env b).2 ∧ heap (AfterEach env b).2 !! length (heap w) = Some q).
  { intros b q Hvb Hdb Hhb.
    assert (Hqb : heap b !! length (heap w) = Some q)
      by (rewrite Hhb; eapply heap_insert_lookup, Hp).
    rewrite (AfterEach_ok env b _ q Hnew Hvb Hqb). unfold kept.
    cbn [snd heap set_calls set_h var_pod draws]. rewrite Hdb, Hhb.
    split; [|eapply heap_insert_lookup, Hp].
    repeat split.
    - intros l q' Hl.
      rewrite list_lookup_insert_ne by (apply lookup_lt_Some in Hl; lia).
      cbn. apply lookup_app_l_Some, Hl.
    - rewrite length_insert. cbn. rewrite length_app. cbn. lia.
    - exact Hvb. }
  assert (Hb : kept (run_spec env (It_are_blocked env) w).2 ∧
               (heap (run_spec env (It_are_blocked env) w).2 !! length (heap w)
                = Some (pod "openshift-backplane") ∨
                heap (run_spec env (It_are_blocked env) w).2 !! length (heap w)
                = Some (pod "openshift-logging"))).
  { rewrite run_spec_unfold. cbn [snd].
    destruct (It_are_blocked_run env _ _ _ Hnew Hv Hp)
      as (_ & _ & Hv' & Hheap & _ & Hd).
    cbv zeta in Hheap.
    destruct (_ && _);
      destruct (Hafter _ _ Hv' Hd Hheap) as [Hk Hq]; (split; [exact Hk|]); auto. }
  assert (Ha : kept (run_spec env (It_are_allowed env) w).2 ∧
               heap (run_spec env (It_are_allowed env) w).2 !! length (heap w)
               = Some (pod "openshift-backplane")).
  { rewrite run_spec_unfold. cbn [snd].
    destruct (It_are_allowed_run env _ _ _ Hnew Hv Hp)
      as (_ & _ & Hv' & Hheap & _ & Hd).
    apply (Hafter _ _ Hv' Hd Hheap). }
  destruct Hb as [Hbk Hbo], Ha as [Hak Hao].
  split; [exact Hbk|]. split; [exact Hak|]. split; intros _; assumption.
Qed.

Lemma spec_writes_only_its_pod_witness :
  let wb := (run_spec webhook_cluster (It_are_blocked webhook_cluster) world0).2 in
  let wa := (run_spec webhook_cluster (It_are_allowed webhook_cluster) wb).2 in
  (heap wb !! 0 = Some (set_Namespace (testPod "osde2e-0") "openshift-backplane") ∨
   heap wb !! 0 = Some (set_Namespace (testPod "osde2e-0") "openshift-logging")) ∧
  heap wa !! 0 = heap wb !! 0 ∧
  length (heap wa) = 2.
Proof.
  destruct (spec_writes_only_its_pod webhook_cluster world0 (fun _ => eq_refl))
    as (_ & _ & Hown & _).
  destruct (spec_writes_only_its_pod webhook_cluster
              (run_spec webhook_cluster (It_are_blocked webhook_cluster) world0).2
              (fun _ => eq_refl)) as (_ & (Hold & Hlen & _) & _).
  split; [|split].
  - apply Hown. intros k Hk. destruct k as [|[|[|k]]]; [discriminate ..|lia].
  - apply Hold. reflexivity.
  - exact Hlen.
Defined.

(** ** Namespaces written through the pointer *)

(** X8: writes of [withNamespace] through the same pointer compose: the
    namespace written last is the one the pod has, as if the earlier write
    had not happened, and writing the pod's original namespace again brings
    the whole state back.  On a nil pointer, or one behind which there is no
    object, it panics and changes nothing. *)
Theorem withNamespace_last_write_wins w l p a b :
  heap w !! l = Some p →
  withNamespace (Some l) b (withNamespace (Some l) a w).2 = withNamespace (Some l) b w ∧
  (withNamespace (Some l) (metav1.Namespace (v1.ObjectMeta p))
     (withNamespace (Some l) a w).2).2 = w ∧
  (∀ w0 l0, heap w0 !! l0 = None →
            ∃ msg, withNamespace (Some l0) a w0 = (Failed msg, w0) ∧
                   withNamespace None a w0 = (Failed msg, w0)).
Proof.
  intros Hp. split; [|split].
  - rewrite (withNamespace_ok w l p a Hp). cbn [snd].
    erewrite withNamespace_ok by (cbn; eapply heap_insert_lookup, Hp).
    rewrite (withNamespace_ok w l p b Hp).
    cbn. rewrite list_insert_insert_eq. reflexivity.
  - rewrite (withNamespace_ok w l p a Hp). cbn [snd].
    erewrite withNamespace_ok by (cbn; eapply heap_insert_lookup, Hp).
    cbn [snd set_heap heap]. rewrite list_insert_insert_eq, set_Namespace_twice.
    assert (Hsame : set_Namespace p (metav1.Namespace (v1.ObjectMeta p)) = p)
      by (destruct p as [[] ?]; reflexivity).
    rewrite Hsame, (list_insert_id _ _ _ Hp). destruct w; reflexivity.
  - intros w0 l0 Hnone. eexists. unfold withNamespace, bind, deref.
    rewrite Hnone. split; reflexivity.
Qed.

Lemma withNamespace_last_write_wins_witness :
  (withNamespace (Some 0) "openshift-logging"
     (withNamespace (Some 0) "openshift-backplane" world1).2).1 = Ok (Some 0) ∧
  (withNamespace (Some 0) "" (withNamespace (Some 0) "openshift-backplane" world1).2).2
  = world1.
Proof.
  destruct (withNamespace_last_write_wins world1 0 (testPod "osde2e-0")
              "openshift-backplane" "openshift-logging" eq_refl) as (Hlast & _).
  destruct (withNamespace_last_write_wins world1 0 (testPod "osde2e-0")
              "openshift-backplane" "" eq_refl) as (_ & Hback & _).
  split; [rewrite Hlast; reflexivity | exact Hback].
Defined.

(** ** The service-account name *)

(** Appending strings is appending their characters, so a common suffix
    cancels. *)
Lemma list_ascii_of_string_app (s t : string) :
  String.list_ascii_of_string (s ++ t)
  = (String.list_ascii_of_string s ++ String.list_ascii_of_string t)%list.
Proof. induction s as [|c s IH]; simpl; [reflexivity | f_equal; exact IH]. Qed.

Lemma string_app_inv_tail (s t u : string) : s ++ u = t ++ u → s = t.
Proof.
  intros H. apply (f_equal String.list_ascii_of_string) in H.
  rewrite !list_ascii_of_string_app in H. apply app_inv_tail in H.
  apply (f_equal String.string_of_list_ascii) in H.
  rewrite !String.string_of_list_ascii_of_string in H. exact H.
Qed.

(** X10: the identity of "are allowed".  The formatted name is never empty,
    starts with system:serviceaccount:, and different projects give
    different names; so for every project, the empty one included,
    [asServiceAccount] on it takes the branch of [asUser] for a named user:
    the client it builds impersonates that name with exactly the two
    authenticated markers, and the helper's service account is that name. *)
Theorem adminProjectServiceAccount_identity env w project :
  (∀ cfg, New_error env cfg = None) →
  let sa := adminProjectServiceAccount project in
  sa ≠ "" ∧
  String.substring 0 22 sa = "system:serviceaccount:" ∧
  (∀ project', adminProjectServiceAccount project' = sa → project' = project) ∧
  ∃ client w',
    asServiceAccount env sa w = (Ok client, w') ∧
    rest.Impersonate (resources.config client)
    = {| rest.UserName := sa;
         rest.Groups := ["system:authenticated"; "system:authenticated:oauth"] |} ∧
    helper.ServiceAccount (var_h w') = sa.
Proof.
  intros Hnew sa. split; [discriminate|].
  split; [destruct project; reflexivity|]. split.
  - intros project' H. subst sa. unfold adminProjectServiceAccount in H.
    apply (inj (String.app "system:serviceaccount:")) in H.
    eapply string_app_inv_tail, H.
  - eexists _, _. rewrite asServiceAccount_ok by assumption.
    subst sa. rewrite groups_stored_account. repeat split.
Qed.

Lemma adminProjectServiceAccount_identity_witness :
  ∃ client w',
    asServiceAccount webhook_cluster (adminProjectServiceAccount "") world0
    = (Ok client, w') ∧
    rest.Impersonate (resources.config client)
    = {| rest.UserName := "system:serviceaccount::dedicated-admin-project";
         rest.Groups := ["system:authenticated"; "system:authenticated:oauth"] |}.
Proof.
  destruct (adminProjectServiceAccount_identity webhook_cluster world0 ""
              (fun _ => eq_refl)) as (_ & _ & _ & client & w' & Hrun & Hident & _).
  exists client, w'. split; [exact Hrun | exact Hident].
Defined.

(** ** What the helper held before does not matter *)

(** Every operation of the suite ignores the identity held before, and so
    does what is built from them with [bind]. *)
Section IgnoresIdentity.

Variable env : Cluster.

Lemma ret_ignores {A} (a : A) : ignores_identity (ret a).
Proof. intros w w' H. split; [reflexivity | exact H]. Qed.

Lemma fail_ignores {A} msg : ignores_identity (@fail A msg).
Proof. intros w w' H. split; [reflexivity | exact H]. Qed.

Lemma bind_ignores {A B} (m : M A) (k : A → M B) :
  ignores_identity m → (∀ a, ignores_identity (k a)) → ignores_identity (bind m k).
Proof.
  intros Hm Hk w w' H. unfold bind.
  destruct (Hm w w' H) as [Hr Hw].
  destruct (m w) as [[a|msg] w1], (m w') as [[a'|msg'] w1'];
    cbn [fst snd] in Hr, Hw; try discriminate Hr.
  - injection Hr as <-. apply Hk, Hw.
  - injection Hr as <-. split; [reflexivity | exact Hw].
Qed.

Lemma Expect_NotTo_HaveOccurred_ignores err msg :
  ignores_identity (Expect_NotTo_HaveOccurred err msg).
Proof. destruct err; [apply fail_ignores | apply ret_ignores]. Qed.

Lemma Expect_To_BeTrue_ignores b msg : ignores_identity (Expect_To_BeTrue b msg).
Proof. destruct b; [apply ret_ignores | apply fail_ignores]. Qed.

Lemma var_pod_ignores : ignores_identity (gets var_pod).
Proof.
  intros w w' H. split; [|exact H].
  destruct H as (_ & Hv & _). cbn. rewrite Hv. reflexivity.
Qed.

Lemma CurrentProject_ignores :
  ignores_identity (gets (fun w => helper.CurrentProject (var_h w))).
Proof.
  intros w w' H. split; [|exact H].
  destruct H as (_ & _ & _ & _ & _ & Hproj). cbn. unfold helper.CurrentProject.
  rewrite Hproj. reflexivity.
Qed.

Lemma set_pod_ignores pod : ignores_identity (modify (fun w => set_pod w pod)).
Proof.
  intros w w' (Hh & Hv & Hc & Hd & Hhost & Hproj).
  split; [reflexivity|]. repeat split; assumption.
Qed.

Lemma remote_ignores c : ignores_identity (remote env c).
Proof.
  intros w w' (Hh & Hv & Hc & Hd & Hhost & Hproj). unfold remote. cbn [fst snd].
  rewrite Hc. split; [reflexivity|]. repeat split; assumption.
Qed.

Lemma deref_ignores ptr : ignores_identity (deref ptr).
Proof.
  intros w w' H. unfold deref. destruct ptr as [l|]; [|split; [reflexivity | exact H]].
  destruct H as (Hh & H). rewrite Hh.
  destruct (heap w' !! l); (split; [reflexivity | split; assumption]).
Qed.

Lemma withNamespace_ignores pod namespace :
  ignores_identity (withNamespace pod namespace).
Proof.
  unfold withNamespace. apply bind_ignores; [apply deref_ignores|]. intros p.
  destruct pod as [l|]; [|apply ret_ignores].
  apply bind_ignores; [|intros; apply ret_ignores].
  intros w w' (Hh & Hv & Hc & Hd & Hhost & Hproj).
  split; [reflexivity|]. cbn. rewrite Hh. repeat split; assumption.
Qed.

Lemma asUser_ignores user groups : ignores_identity (asUser env user groups).
Proof.
  intros w w' (Hh & Hv & Hc & Hd & Hhost & Hproj). rewrite !asUser_unfold. cbn zeta.
  unfold config_as. rewrite Hhost.
  destruct (New_error env _); cbn; repeat split; assumption.
Qed.

Lemma asServiceAccount_ignores sa : ignores_identity (asServiceAccount env sa).
Proof.
  unfold asServiceAccount. apply bind_ignores; [|intros; apply asUser_ignores].
  intros w w' (Hh & Hv & Hc & Hd & Hhost & Hproj).
  split; [reflexivity|]. repeat split; assumption.
Qed.

Lemma BeforeEach_ignores : ignores_identity (BeforeEach env).
Proof.
  intros w w' (Hh & Hv & Hc & Hd & Hhost & Hproj). rewrite !BeforeEach_ok.
  split; [reflexivity|]. unfold after_setup. cbn. rewrite Hh, Hd.
  repeat split; assumption.
Qed.

(** Composing the pieces along a body. *)
Ltac ignores :=
  repeat first
    [ apply asUser_ignores | apply asServiceAccount_ignores
    | apply withNamespace_ignores | apply remote_ignores | apply deref_ignores
    | apply var_pod_ignores | apply CurrentProject_ignores | apply set_pod_ignores
    | apply Expect_NotTo_HaveOccurred_ignores | apply Expect_To_BeTrue_ignores
    | apply ret_ignores | apply fail_ignores
    | apply bind_ignores; [|intros] ].

Lemma AfterEach_ignores : ignores_identity (AfterEach env).
Proof.
  unfold AfterEach, client_Delete. ignores.
  destruct (negb _); ignores.
Qed.

Lemma run_spec_ignores body :
  ignores_identity body → ignores_identity (run_spec env body).
Proof.
  intros Hbody w w' H. rewrite !run_spec_unfold. cbn [fst snd].
  destruct (BeforeEach_ignores w w' H) as [_ H1]. rewrite !BeforeEach_ok in H1.
  cbn [snd] in H1.
  destruct (Hbody _ _ H1) as [Hr H2].
  destruct (AfterEach_ignores _ _ H2) as [Hr' H3].
  rewrite Hr, Hr'. split; [reflexivity | exact H3].
Qed.

(** X11: what the helper impersonated before a spec, and the service
    account left on it, do not matter to the spec.  From two states that
    differ at most there, the existence spec and both authorization specs
    (setup and cleanup included) report the same outcome, send the same
    calls and draw the same names, on every cluster; and the states they
    end in again differ at most there. *)
Theorem specs_ignore_earlier_identity :
  ignores_identity (It_exists_and_is_running env) ∧
  ignores_identity (run_spec env (It_are_blocked env)) ∧
  ignores_identity (run_spec env (It_are_allowed env)).
Proof.
  split; [|split].
  - unfold It_exists_and_is_running, client_Get, waitForDaemonSetAvailable. ignores.
  - apply run_spec_ignores.
    unfold It_are_blocked, asDedicatedAdmin, client_Create. ignores.
  - apply run_spec_ignores.
    unfold It_are_allowed, client_Create. ignores.
Qed.

End IgnoresIdentity.

Lemma specs_ignore_earlier_identity_witness :
  let w := (asServiceAccount webhook_cluster "system:serviceaccount:other:sa" world0).2 in
  (run_spec webhook_cluster (It_are_blocked webhook_cluster) w).1
  = (run_spec webhook_cluster (It_are_blocked webhook_cluster) world0).1 ∧
  calls (run_spec webhook_cluster (It_are_blocked webhook_cluster) w).2
  = calls (run_spec webhook_cluster (It_are_blocked webhook_cluster) world0).2.
Proof.
  destruct (specs_ignore_earlier_identity webhook_cluster) as (_ & Hblocked & _).
  destruct (Hblocked
              (asServiceAccount webhook_cluster "system:serviceaccount:other:sa" world0).2
              world0) as (Hr & _ & _ & Hc & _).
  { repeat split. }
  split; [exact Hr | exact Hc].
Defined.
